(** * CineMate Care: the perception-to-action coordination core

    A shallow embedding of the decision logic of the backend
    (audio_monitor.py, vision_capture.py, cognitive_engine.py,
    demo_mode.py, main.py) together with the properties the
    specification states about it.

    Conventions of the embedding.
    - A [datetime] is its number of microseconds on the time line (a [Z]);
      a [timedelta] is a difference of two of them.  [total_seconds] is the
      exact rational, so the float rounding of Python is idealised away.
    - A Python [float] that is only compared (loudness levels, similarity
      scores, [time.time()] readings) is a rational of [Q].
    - Every reading of the clock is an explicit argument of the function
      that reads it.
    - External collaborators (the similarity routine, the grayscale
      conversion, the reasoning service) are arguments: the embedding
      takes their outcome, it does not compute it. *)

From Stdlib Require Import ZArith QArith List String Ascii Bool Lia Lqa Sorted.
From stdpp Require Import base option gmap strings list.
Import ListNotations.

Open Scope string_scope.
Open Scope list_scope.
Open Scope Z_scope.

(* ===================================================================== *)
(** * Part I: the embedding                                               *)
(* ===================================================================== *)

(** ** Shared vocabulary *)

(** [timedelta.total_seconds()], for a difference given in microseconds. *)
Definition total_seconds (delta : Z) : Q := (delta # 1000000)%Q.

(** Python's [x > y], [x < y] and [x >= y] on floats. *)
Definition Qgtb (x y : Q) : bool := negb (Qle_bool x y).
Definition Qltb (x y : Q) : bool := negb (Qle_bool y x).
Definition Qgeb (x y : Q) : bool := Qle_bool y x.

(** ** audio_monitor.py *)

Module AudioMonitor.

(** The callbacks [on_loud] and [on_quiet] are observed through the calls
    made to them. *)
Inductive callback : Type :=
| OnLoud (db : Q)
| OnQuiet (db : Q).

Record t : Type := mk {
  threshold_db : Q;
  quiet_duration_ms : Z;
  current_db : Q;
  db_history : list Q;            (* deque(maxlen=50), oldest first *)
  last_loud_time : option Z;      (* Optional[datetime] *)
  on_loud : bool;                 (* is a callback installed? *)
  on_quiet : bool
}.

(** [AudioMonitor.__init__] (the audio device fields are left out). *)
Definition init (threshold : Q) (quiet_ms : Z) : t :=
  {| threshold_db := threshold;
     quiet_duration_ms := quiet_ms;
     current_db := 0;
     db_history := [];
     last_loud_time := None;
     on_loud := false;
     on_quiet := false |}.

(** [deque.append] on a deque of bounded length: the oldest entries fall
    out at the front. *)
Definition deque_append (maxlen : nat) (x : Q) (d : list Q) : list Q :=
  let d' := d ++ [x] in
  drop (length d' - maxlen)%nat d'.

(** [(datetime.now() - self.last_loud_time).total_seconds() * 1000]. *)
Definition elapsed_ms (loud now : Z) : Q := (total_seconds (now - loud) * 1000)%Q.

(** [is_quiet], reading the clock as [now]. *)
Definition is_quiet (now : Z) (s : t) : bool :=
  if Qgtb (current_db s) (threshold_db s) then false
  else match last_loud_time s with
       | None => true
       | Some loud => Qgeb (elapsed_ms loud now) (inject_Z (quiet_duration_ms s))
       end.

(** [_process_db_level]: one clock reading per call (the loud branch
    stamps it, the other branch hands it to [is_quiet]). *)
Definition _process_db_level (now : Z) (db : Q) (s : t) : t * list callback :=
  let s1 := {| threshold_db := threshold_db s;
               quiet_duration_ms := quiet_duration_ms s;
               current_db := db;
               db_history := deque_append 50 db (db_history s);
               last_loud_time := last_loud_time s;
               on_loud := on_loud s;
               on_quiet := on_quiet s |} in
  if Qgtb db (threshold_db s1) then
    ({| threshold_db := threshold_db s1;
        quiet_duration_ms := quiet_duration_ms s1;
        current_db := current_db s1;
        db_history := db_history s1;
        last_loud_time := Some now;
        on_loud := on_loud s1;
        on_quiet := on_quiet s1 |},
     if on_loud s1 then [OnLoud db] else [])
  else
    (s1, if is_quiet now s1 && on_quiet s1 then [OnQuiet db] else []).

(** The monitor loop feeds one sample after the other; a sample is the
    clock reading of its processing and the level. *)
Definition observe (s : t) (sample : Z * Q) : t :=
  fst (_process_db_level (fst sample) (snd sample) s).

Definition observe_all (s : t) (samples : list (Z * Q)) : t :=
  fold_left observe samples s.


(** A sample is loud when its level is above the threshold, calm when it
    is at or under it. *)
Definition loud (thr : Q) (sample : Z * Q) : Prop := (thr < snd sample)%Q.
Definition calm (thr : Q) (sample : Z * Q) : Prop := (snd sample <= thr)%Q.

End AudioMonitor.

(** ** vision_capture.py: the keyframe detector *)

Module VisionCapture.

Section Detector.
(** A BGR frame of the camera, its single-channel form, the conversion
    [cv2.cvtColor(_, COLOR_BGR2GRAY)] and the similarity routine
    [skimage.metrics.structural_similarity], whose failure (an
    exception) is [None]. *)
Variables frame gray : Type.
Variable cvtColor : frame -> gray.
Variable ssim : gray -> gray -> option Q.

Record t : Type := mk {
  ssim_threshold : Q;
  max_interval_seconds : Q;
  previous_frame_gray : option gray;
  last_analysis_time : Q;         (* a time.time() reading *)
  frame_count : Z;
  analysis_count : Z
}.

(** The detector fields set by [VisionCapture.__init__]. *)
Definition init (threshold max_interval : Q) : t :=
  {| ssim_threshold := threshold;
     max_interval_seconds := max_interval;
     previous_frame_gray := None;
     last_analysis_time := 0;
     frame_count := 0;
     analysis_count := 0 |}.

(** The two assignments made on every accepting branch:
    [self.previous_frame_gray = current_gray] and
    [self.last_analysis_time = current_time]. *)
Definition remember (current_gray : gray) (current_time : Q) (s : t) : t :=
  {| ssim_threshold := ssim_threshold s;
     max_interval_seconds := max_interval_seconds s;
     previous_frame_gray := Some current_gray;
     last_analysis_time := current_time;
     frame_count := frame_count s;
     analysis_count := analysis_count s |}.

(** [is_keyframe], reading [time.time()] as [current_time]; the verdict
    and the detector afterwards. *)
Definition is_keyframe (current_time : Q) (current_frame : frame) (s : t)
  : bool * t :=
  let current_gray := cvtColor current_frame in
  match previous_frame_gray s with
  | None =>
      (* Case 1: first frame *)
      (true, remember current_gray current_time s)
  | Some previous =>
      (* Case 2: time-based trigger *)
      let time_since_last := (current_time - last_analysis_time s)%Q in
      if Qgeb time_since_last (max_interval_seconds s) then
        (true, remember current_gray current_time s)
      else
        (* Case 3: content-based trigger *)
        match ssim previous current_gray with
        | Some similarity =>
            if Qltb similarity (ssim_threshold s) then
              (true, remember current_gray current_time s)
            else (false, s)
        | None => (false, s)
        end
  end.

(** The capture loop evaluates one frame after the other. *)
Fixpoint evaluate_all (s : t) (frames : list (Q * frame)) : list bool * t :=
  match frames with
  | [] => ([], s)
  | (now, f) :: rest =>
      let '(verdict, s1) := is_keyframe now f s in
      let '(verdicts, s2) := evaluate_all s1 rest in
      (verdict :: verdicts, s2)
  end.

End Detector.

Arguments ssim_threshold {gray} _.
Arguments max_interval_seconds {gray} _.
Arguments previous_frame_gray {gray} _.
Arguments last_analysis_time {gray} _.
Arguments frame_count {gray} _.
Arguments analysis_count {gray} _.
Arguments remember {gray} _ _ _.
Arguments is_keyframe {frame gray} _ _ _ _ _.
Arguments evaluate_all {frame gray} _ _ _ _.

(** A small stand-in for the collaborators, to run the detector on
    concrete frames: a frame is a row of pixels, its gray form the row of
    channel sums, and the similarity of two rows is undefined when their
    lengths differ, 1 when they are equal and 0 otherwise. *)
Definition row_gray (f : list (Z * Z * Z)) : list Z :=
  map (fun '(b, g, r) => b + g + r) f.

Definition row_ssim (x y : list Z) : option Q :=
  if negb (length x =? length y)%nat then None
  else if bool_decide (x = y) then Some 1%Q else Some 0%Q.

Definition black : list (Z * Z * Z) := [(0, 0, 0); (0, 0, 0)].
Definition white : list (Z * Z * Z) := [(255, 255, 255); (255, 255, 255)].
Definition short : list (Z * Z * Z) := [(9, 9, 9)].

(** The detector of the defaults (threshold 0.95, interval 15 s) after it
    accepted the row [g] at time [at_time]. *)
Definition seen (g : list (Z * Z * Z)) (at_time : Q) : t (list Z) :=
  remember (row_gray g) at_time (init (list Z) (95 # 100) 15).

End VisionCapture.

(** ** Python values *)

(** What [json.loads] yields, which is also what the decision dictionaries
    hold: [None], booleans, numbers, strings, lists and dictionaries. *)
#[local] Unset Elimination Schemes.
Inductive json : Type :=
| JNull
| JBool (b : bool)
| JInt (z : Z)
| JFloat (q : Q)
| JStr (s : string)
| JArr (items : list json)
| JObj (fields : list (string * json)).
#[local] Set Elimination Schemes.

#[global] Instance json_inhabited : Inhabited json := populate JNull.

(** Truth value of a Python object, as [if x:] and [x and y] test it. *)
Definition truthy (v : json) : bool :=
  match v with
  | JNull => false
  | JBool b => b
  | JInt z => negb (z =? 0)
  | JFloat q => negb (Qeq_bool q 0)
  | JStr s => negb (String.eqb s "")
  | JArr items => match items with [] => false | _ => true end
  | JObj fields => match fields with [] => false | _ => true end
  end.

(** [x[:50]] is defined on strings and lists and raises on the rest. *)
Definition sliceable (v : json) : bool :=
  match v with
  | JStr _ | JArr _ => true
  | _ => false
  end.

(** The exceptions the embedded code can raise by itself. *)
Inductive exn : Type :=
| AttributeError (v : json) (attr : string)   (* v.attr on a value without it *)
| NotSubscriptable (v : json).                (* v[:50] on a value without slices *)

(** [d.setdefault(k, v)], for its effect on [d]. *)
Definition setdefault (k : string) (v : json) (d : gmap string json)
  : gmap string json :=
  match d !! k with
  | Some _ => d
  | None => <[k := v]> d
  end.

(** ** cognitive_engine.py *)

Module CognitiveEngine.

(** What one call of the reasoning collaborator comes to:
    the request or the reading of its answer raised (time-out, network,
    service error), with [str(e)]; or the answer is not JSON
    ([json.JSONDecodeError]); or it is the JSON value [v]. *)
Inductive reply : Type :=
| Raised (message : string)
| NotJson
| Parsed (v : json).

Definition azure_service : string := "Azure OpenAI Service (GPT-4o)".

(** [_fallback_response], stamped with [datetime.now().isoformat()]. *)
Definition _fallback_response (timestamp : string) (error_reason : string)
  : gmap string json :=
  <["should_speak" := JBool false]>
  (<["emotion" := JStr "neutral"]>
  (<["content" := JStr ""]>
  (<["reasoning" := JStr (String.append "Fallback due to error: " error_reason)]>
  (<["metadata" := JObj [("azure_service", JStr azure_service);
                         ("timestamp", JStr timestamp);
                         ("error", JBool true)]]> ∅)))).

(** The four [setdefault] calls that validate the parsed decision. *)
Definition validate (result : gmap string json) : gmap string json :=
  setdefault "reasoning" (JStr "No reasoning provided")
    (setdefault "content" (JStr "")
      (setdefault "emotion" (JStr "neutral")
        (setdefault "should_speak" (JBool false) result))).

(** [analyze_context], from the reply of the collaborator on.  The prompt
    assembled from the scene, the transcript and the history only feeds the
    collaborator.  A parsed value that is no dictionary has no
    [setdefault]; the log lines slice [content] or [reasoning], which
    raises on a value without slices; both land in the outer handler, which
    reports [str(e)].  The wording of [str(e)] is the interpreter's, not the
    program's: [str_exn] supplies it. *)
Definition analyze_context (str_exn : exn -> string)
    (deployment timestamp : string) (r : reply) : gmap string json :=
  match r with
  | Raised message => _fallback_response timestamp message
  | NotJson => _fallback_response timestamp "JSON parsing error"
  | Parsed (JObj fields) =>
      (* json.loads keeps the last of repeated keys *)
      let result := validate (list_to_map (reverse fields)) in
      let result :=
        <["metadata" := JObj [("azure_service", JStr azure_service);
                              ("timestamp", JStr timestamp);
                              ("model", JStr deployment)]]> result in
      let logged :=
        if truthy (result !!! "should_speak") then result !!! "content"
        else result !!! "reasoning" in
      if sliceable logged then result
      else _fallback_response timestamp (str_exn (NotSubscriptable logged))
  | Parsed v =>
      _fallback_response timestamp (str_exn (AttributeError v "setdefault"))
  end.

(** The collaborator failed: it raised (a time-out is an exception of the
    request), or its answer is not JSON, or not a JSON object. *)
Definition failed (r : reply) : Prop :=
  match r with
  | Raised _ | NotJson => True
  | Parsed (JObj _) => False
  | Parsed _ => True
  end.

(** A decision whose present fields have the types the prompt asks for. *)
Definition well_typed (d : gmap string json) : Prop :=
  (forall v, d !! "should_speak" = Some v -> exists b, v = JBool b) /\
  (forall v, d !! "emotion" = Some v -> exists s, v = JStr s) /\
  (forall v, d !! "content" = Some v -> exists s, v = JStr s) /\
  (forall v, d !! "reasoning" = Some v -> exists s, v = JStr s).

(** A stand-in for [str(e)], to run the engine on concrete replies: the
    class of the exception. *)
Definition exn_class (e : exn) : string :=
  match e with
  | AttributeError _ _ => "AttributeError"
  | NotSubscriptable _ => "TypeError"
  end.

End CognitiveEngine.

(** ** demo_mode.py *)

Module DemoMode.

(** The value of an entry of [DEMO_CLIP_RESPONSES]: a dictionary with the
    keys [scene], [emotion] and [response]. *)
Record clip_entry : Type := mk_entry {
  scene : string;
  emotion : string;
  response : string
}.

(** [DEMO_CLIP_RESPONSES], in the order of the source (the order in which
    the lookup walks the dictionary). *)
Definition DEMO_CLIP_RESPONSES : list (string * clip_entry) :=
  [ ("0-10",
     {| scene := "Young Carl meets young Ellie in the abandoned house";
        emotion := "cheerful";
        response := "Oh, what a wonderful beginning! A young boy meeting a spirited girl in an old clubhouse. You can tell they're going to be best friends." |});
    ("10-30",
     {| scene := "Ellie shows Carl her adventure book";
        emotion := "cheerful";
        response := "She's showing him her adventure book! Paradise Falls in South America - that's her dream destination. What a big dream for such a young heart." |});
    ("30-60",
     {| scene := "Carl and Ellie grow up together, get married";
        emotion := "warm";
        response := "Look at them growing up together, getting married in the same little clubhouse where they met. Some love stories are just meant to be." |});
    ("60-120",
     {| scene := "They fix up their house, save money for Paradise Falls";
        emotion := "empathetic";
        response := "They're saving pennies for their dream trip, but life keeps getting in the way. A flat tire, a broken leg... that's how life goes sometimes, isn't it?" |});
    ("120-180",
     {| scene := "They discover they can't have children";
        emotion := "empathetic";
        response := "This is a tender moment. They're dealing with some sad news together. But see how he's there for her? That's what partners do." |});
    ("180-240",
     {| scene := "Ellie gets sick and passes away";
        emotion := "empathetic";
        response := "This is a difficult scene. Ellie is saying goodbye. Would you like me to pause for a moment? It's okay to feel this deeply." |});
    ("240+",
     {| scene := "Carl alone with the empty chair";
        emotion := "empathetic";
        response := "Carl is sitting alone now. But you know what? The love they shared isn't gone. It lives on in every adventure he's about to take." |}) ].

(** [FALLBACK_RESPONSES]. *)
Definition FALLBACK_RESPONSES : gmap string string :=
  list_to_map
    [ ("scene_description", "I can see an emotional scene unfolding here. The characters seem to be sharing an important moment.");
      ("question_answer", "I'm happy to help describe what's happening. The scene shows people interacting in a meaningful way.");
      ("distress", "I noticed you might need a moment. Would you like me to pause the movie? I'm right here with you.");
      ("greeting", "Hello! I'm CineMate Care, your friendly movie companion. I'm here whenever you need me.");
      ("farewell", "It was lovely watching with you. Take care, and I hope to see you again soon!");
      ("generic", "That's an interesting scene. Let me know if you'd like me to describe anything specific.") ].

(** *** The string operations applied to the keys *)

(** [sep in s], for a separator of one character. *)
Fixpoint contains (sep : ascii) (s : string) : bool :=
  match s with
  | EmptyString => false
  | String c rest => Ascii.eqb c sep || contains sep rest
  end.

(** [s.split(sep)], for a separator of one character. *)
Fixpoint split (sep : ascii) (s : string) : list string :=
  match s with
  | EmptyString => [EmptyString]
  | String c rest =>
      if Ascii.eqb c sep then EmptyString :: split sep rest
      else match split sep rest with
           | part :: parts => String c part :: parts
           | [] => [String c EmptyString]
           end
  end.

(** [s.endswith(c)], for one character. *)
Fixpoint endswith (c : ascii) (s : string) : bool :=
  match s with
  | EmptyString => false
  | String d EmptyString => Ascii.eqb d c
  | String _ rest => endswith c rest
  end.

(** [s[:-1]]. *)
Fixpoint but_last (s : string) : string :=
  match s with
  | EmptyString => EmptyString
  | String _ EmptyString => EmptyString
  | String c rest => String c (but_last rest)
  end.

Definition digit (c : ascii) : option Z :=
  let n := Z.of_nat (nat_of_ascii c) in
  if (48 <=? n) && (n <=? 57) then Some (n - 48) else None.

Fixpoint digits (acc : Z) (s : string) : option Z :=
  match s with
  | EmptyString => Some acc
  | String c rest =>
      match digit c with
      | Some d => digits (10 * acc + d) rest
      | None => None
      end
  end.

(** [float(s)] on the literals the keys are written with, unsigned decimal
    integers; [None] is the [ValueError].  The further spellings Python
    reads (signs, fractions, exponents, blanks, inf, nan) occur in no key
    and are not modelled: they are taken as errors here. *)
Definition float (s : string) : option Q :=
  match s with
  | EmptyString => None
  | _ => inject_Z <$> digits 0 s
  end.

(** A call either returns or raises [ValueError] (an unpacking of the
    wrong length, or [float] on an ill-formed literal). *)
Inductive result (A : Type) : Type :=
| Returned (a : A)
| ValueError.
Arguments Returned {A} _.
Arguments ValueError {A}.

(** *** The class [DemoMode] *)

Record t : Type := mk {
  clip_responses : list (string * clip_entry);
  fallback_responses : gmap string string;
  clip_start_time : option Z;     (* Optional[datetime] *)
  is_demo_active : bool
}.

Definition init : t :=
  {| clip_responses := DEMO_CLIP_RESPONSES;
     fallback_responses := FALLBACK_RESPONSES;
     clip_start_time := None;
     is_demo_active := false |}.

Definition start_demo_clip (now : Z) (s : t) : t :=
  {| clip_responses := clip_responses s;
     fallback_responses := fallback_responses s;
     clip_start_time := Some now;
     is_demo_active := true |}.

Definition stop_demo_clip (s : t) : t :=
  {| clip_responses := clip_responses s;
     fallback_responses := fallback_responses s;
     clip_start_time := None;
     is_demo_active := false |}.

Definition get_elapsed_seconds (now : Z) (s : t) : Q :=
  match clip_start_time s with
  | None => 0
  | Some started => total_seconds (now - started)
  end.

(** The [for] loop of [get_response_for_timestamp]: [Returned (Some data)]
    when it returns from inside, [Returned None] when it runs to its end.
    The chained comparison [float(start) <= seconds < float(end)] reads
    [end] only when its first half holds. *)
Fixpoint find_time_range (seconds : Q) (table : list (string * clip_entry))
  : result (option clip_entry) :=
  match table with
  | [] => Returned None
  | (time_range, data) :: rest =>
      if contains "-" time_range then
        match split "-" time_range with
        | [start; end_] =>
            match float start with
            | None => ValueError
            | Some lo =>
                if Qle_bool lo seconds then
                  match float end_ with
                  | None => ValueError
                  | Some hi =>
                      if Qltb seconds hi then Returned (Some data)
                      else find_time_range seconds rest
                  end
                else find_time_range seconds rest
            end
        | _ => ValueError
        end
      else if endswith "+" time_range then
        match float (but_last time_range) with
        | None => ValueError
        | Some lo =>
            if Qgeb seconds lo then Returned (Some data)
            else find_time_range seconds rest
        end
      else find_time_range seconds rest
  end.

(** The dictionary returned when no time range matches. *)
Definition generic_entry (s : t) : clip_entry :=
  {| scene := "General movie scene";
     emotion := "neutral";
     response := fallback_responses s !!! "generic" |}.

Definition get_response_for_timestamp (now : Z) (seconds : option Q) (s : t)
  : result clip_entry :=
  let seconds :=
    match seconds with
    | None => get_elapsed_seconds now s
    | Some given => given
    end in
  match find_time_range seconds (clip_responses s) with
  | Returned (Some data) => Returned data
  | Returned None => Returned (generic_entry s)
  | ValueError => ValueError
  end.

(** *** Reading the keys as intervals *)

(** The interval a key stands for: ["a-b"] is [a <= t < b], ["a+"] is
    [a <= t]. *)
Definition interval_of (time_range : string) : option (Q * option Q) :=
  if contains "-" time_range then
    match split "-" time_range with
    | [start; end_] =>
        match float start, float end_ with
        | Some lo, Some hi => Some (lo, Some hi)
        | _, _ => None
        end
    | _ => None
    end
  else if endswith "+" time_range then
    match float (but_last time_range) with
    | Some lo => Some (lo, None)
    | None => None
    end
  else None.

Definition within (bounds : Q * option Q) (seconds : Q) : Prop :=
  (fst bounds <= seconds)%Q /\
  match snd bounds with
  | Some hi => (seconds < hi)%Q
  | None => True
  end.

Definition withinb (bounds : Q * option Q) (seconds : Q) : bool :=
  Qle_bool (fst bounds) seconds &&
  match snd bounds with
  | Some hi => Qltb seconds hi
  | None => true
  end.

(** Every key of the table reads as an interval. *)
Definition well_formed (table : list (string * clip_entry)) : Prop :=
  Forall (fun kd => is_Some (interval_of (fst kd))) table.

(** The registered entry [data] covers the time [seconds]. *)
Definition covers (table : list (string * clip_entry))
    (data : clip_entry) (seconds : Q) : Prop :=
  exists time_range bounds,
    In (time_range, data) table /\
    interval_of time_range = Some bounds /\
    within bounds seconds.

End DemoMode.

(** *** The class [DemoController] *)

Module DemoController.

Record t : Type := mk {
  demo_mode : DemoMode.t;
  is_demo : bool                   (* DEMO_MODE of the environment *)
}.

Definition init (is_demo : bool) : t :=
  {| demo_mode := DemoMode.init; is_demo := is_demo |}.

(** [start], for its effect on the demo timeline. *)
Definition start (now : Z) (s : t) : t :=
  if is_demo s then
    {| demo_mode := DemoMode.start_demo_clip now (demo_mode s);
       is_demo := is_demo s |}
  else s.

Definition stop (s : t) : t :=
  {| demo_mode := DemoMode.stop_demo_clip (demo_mode s); is_demo := is_demo s |}.

(** [azure_response and azure_response.get("content")], as a truth value. *)
Definition usable (azure_response : option (gmap string json)) : bool :=
  match azure_response with
  | None => false
  | Some d =>
      negb (bool_decide (d = ∅)) &&
      match d !! "content" with
      | Some v => truthy v
      | None => false
      end
  end.

Definition get_response (now : Z) (azure_response : option (gmap string json))
    (s : t) : DemoMode.result (gmap string json) :=
  if usable azure_response then
    DemoMode.Returned (default ∅ azure_response)
  else if DemoMode.is_demo_active (demo_mode s) then
    match DemoMode.get_response_for_timestamp now None (demo_mode s) with
    | DemoMode.Returned data =>
        DemoMode.Returned
          (<["should_speak" := JBool true]>
          (<["emotion" := JStr (DemoMode.emotion data)]>
          (<["content" := JStr (DemoMode.response data)]>
          (<["source" := JStr "demo_mode"]> ∅))))
    | DemoMode.ValueError => DemoMode.ValueError
    end
  else
    DemoMode.Returned
      (<["should_speak" := JBool true]>
      (<["emotion" := JStr "calm"]>
      (<["content" := JStr (DemoMode.FALLBACK_RESPONSES !!! "scene_description")]>
      (<["source" := JStr "fallback"]> ∅)))).

End DemoController.

(** ** main.py: the orchestrator *)

(** [queue.Queue()], built without [maxsize]: a FIFO without bound.  The
    oldest item is at the head. *)
Module Queue.

Definition t (A : Type) : Type := list A.

Definition empty {A : Type} : t A := [].

(** [put(item)]: with no bound the queue is never full, so the call
    neither blocks nor raises. *)
Definition put {A : Type} (item : A) (q : t A) : t A := q ++ [item].

(** [get_nowait()]: [None] is the exception [Empty]. *)
Definition get_nowait {A : Type} (q : t A) : option (A * t A) :=
  match q with
  | [] => None
  | item :: rest => Some (item, rest)
  end.

Definition qsize {A : Type} (q : t A) : nat := length q.

End Queue.

Module Orchestrator.

(** The dictionary the vision worker puts on the queue. *)
Record caption_data : Type := mk_caption {
  caption : string;
  timestamp : string;
  people_count : Z;
  dense_captions : list string
}.

(** A call [voice.speak_async(text, style)]. *)
Record speech : Type := mk_speech {
  text : json;
  style : json
}.

Record t : Type := mk {
  engine : option string;          (* the engine's deployment, if it was built *)
  user_history : list string;
  max_history : nat;
  latest_caption : option string;
  audio_transcript : string;
  last_distress_check : Z;         (* datetime *)
  distress_cooldown : Z;           (* timedelta *)
  caption_queue : Queue.t caption_data
}.

(** The state set up by [__init__], which reads the clock once. *)
Definition init (now : Z) (engine : option string) : t :=
  {| engine := engine;
     user_history := [];
     max_history := 20;
     latest_caption := None;
     audio_transcript := "";
     last_distress_check := now;
     distress_cooldown := 30 * 1000000;      (* timedelta(seconds=30) *)
     caption_queue := Queue.empty |}.

Definition set_queue (q : Queue.t caption_data) (s : t) : t :=
  {| engine := engine s;
     user_history := user_history s;
     max_history := max_history s;
     latest_caption := latest_caption s;
     audio_transcript := audio_transcript s;
     last_distress_check := last_distress_check s;
     distress_cooldown := distress_cooldown s;
     caption_queue := q |}.

Definition set_latest_caption (c : option string) (s : t) : t :=
  {| engine := engine s;
     user_history := user_history s;
     max_history := max_history s;
     latest_caption := c;
     audio_transcript := audio_transcript s;
     last_distress_check := last_distress_check s;
     distress_cooldown := distress_cooldown s;
     caption_queue := caption_queue s |}.

Definition set_last_distress_check (now : Z) (s : t) : t :=
  {| engine := engine s;
     user_history := user_history s;
     max_history := max_history s;
     latest_caption := latest_caption s;
     audio_transcript := audio_transcript s;
     last_distress_check := now;
     distress_cooldown := distress_cooldown s;
     caption_queue := caption_queue s |}.

Definition set_user_history (h : list string) (s : t) : t :=
  {| engine := engine s;
     user_history := h;
     max_history := max_history s;
     latest_caption := latest_caption s;
     audio_transcript := audio_transcript s;
     last_distress_check := last_distress_check s;
     distress_cooldown := distress_cooldown s;
     caption_queue := caption_queue s |}.

(** [_on_user_speech]: append, and drop the oldest entry past the cap. *)
Definition _on_user_speech (said : string) (s : t) : t :=
  let h := user_history s ++ [said] in
  set_user_history (if (max_history s <? length h)%nat then tail h else h) s.

Definition comfort_message : string :=
  "I noticed you might be feeling overwhelmed. Would you like me to pause the movie? Take all the time you need.".

(** [_on_distress], reading the clock as [now]: the state afterwards and
    the calls made to the voice. *)
Definition _on_distress (now : Z) (said : string) (s : t) : t * list speech :=
  if now - last_distress_check s <? distress_cooldown s then
    (s, [])
  else
    (set_last_distress_check now s,
     [ {| text := JStr comfort_message; style := JStr "empathetic" |} ]).

(** The distress callback fired at the given clock readings, one event
    after the other: the state afterwards and the comfort responses given,
    each with the clock reading of its event. *)
Fixpoint distress_run (s : t) (events : list (Z * string)) : t * list Z :=
  match events with
  | [] => (s, [])
  | (now, said) :: rest =>
      let '(s1, spoken) := _on_distress now said s in
      let '(s2, responses) := distress_run s1 rest in
      (s2, match spoken with [] => responses | _ => now :: responses end)
  end.

(** Two clock readings at least [gap] apart, the earlier one first. *)
Definition apart (gap earlier later : Z) : Prop := earlier + gap <= later.

(** The vision worker publishing the caption of an analysed frame. *)
Definition publish (item : caption_data) (s : t) : t :=
  set_queue (Queue.put item (caption_queue s)) s.

(** Step 1 of the main loop: take one caption off the queue if there is
    one, otherwise keep the caption already known. *)
Definition take_caption (s : t) : t :=
  match Queue.get_nowait (caption_queue s) with
  | Some (item, rest) => set_latest_caption (Some (caption item)) (set_queue rest s)
  | None => s
  end.

(** [decision.get(key)] as a truth value. *)
Definition get_truthy (decision : gmap string json) (key : string) : bool :=
  match decision !! key with
  | Some v => truthy v
  | None => false
  end.

(** Step 4 of the main loop: what is spoken for a decision.  (When nothing
    is spoken the loop only writes a log line.) *)
Definition speak_decision (decision : gmap string json) : list speech :=
  if get_truthy decision "should_speak" && get_truthy decision "content" then
    [ {| text := decision !!! "content";
         style := default (JStr "neutral") (decision !! "emotion") |} ]
  else [].

(** One iteration of [_main_loop], for the iteration counted [loop_count]
    (already incremented).  [distress_recent] is what
    [voice.distress_detected_recently(10)] answers, [r] what the reasoning
    collaborator comes to if it is asked. *)
Definition main_loop_iteration (str_exn : exn -> string) (timestamp : string)
    (distress_recent : bool) (r : CognitiveEngine.reply)
    (loop_count : Z) (s : t) : t * list speech :=
  let s := take_caption s in
  if distress_recent then (s, [])
  else
    match latest_caption s, engine s with
    | Some scene, Some deployment =>
        if negb (String.eqb scene "") && (loop_count mod 30 =? 0) then
          (s, speak_decision
                (CognitiveEngine.analyze_context str_exn deployment timestamp r))
        else (s, [])
    | _, _ => (s, [])
    end.

(** Producer and consumer at work on the queue. *)
Inductive queue_op : Type :=
| Push (item : caption_data)       (* the vision worker publishes *)
| Pop.                             (* the main loop runs its step 1 *)

Definition queue_step (s : t) (op : queue_op) : t :=
  match op with
  | Push item => publish item s
  | Pop => take_caption s
  end.

Definition queue_run (s : t) (ops : list queue_op) : t :=
  fold_left queue_step ops s.

(** The items pushed by a sequence of operations, in order. *)
Fixpoint pushed (ops : list queue_op) : list caption_data :=
  match ops with
  | [] => []
  | Push item :: rest => item :: pushed rest
  | Pop :: rest => pushed rest
  end.

(** The items the consumer received, in order, when the operations run
    from the queue [q]. *)
Fixpoint consumed (q : Queue.t caption_data) (ops : list queue_op)
  : list caption_data :=
  match ops with
  | [] => []
  | Push item :: rest => consumed (Queue.put item q) rest
  | Pop :: rest =>
      match Queue.get_nowait q with
      | Some (item, q') => item :: consumed q' rest
      | None => consumed q rest
      end
  end.

Definition observation (c : string) : caption_data :=
  {| caption := c; timestamp := ""; people_count := 0; dense_captions := [] |}.

End Orchestrator.

(** ** audio_monitor.py: the cognitive processing pause *)

Module CognitiveProcessingPause.

(** The calls made to the two callbacks. *)
Inductive call : Type :=
| PauseVideo
| UnpauseVideo.

Record t : Type := mk {
  pause_callback : bool;          (* is a callback installed? *)
  unpause_callback : bool;
  is_paused : bool
}.

Definition init (pause unpause : bool) : t :=
  {| pause_callback := pause; unpause_callback := unpause; is_paused := false |}.

Definition set_paused (b : bool) (s : t) : t :=
  {| pause_callback := pause_callback s;
     unpause_callback := unpause_callback s;
     is_paused := b |}.

Definition thinking_start (s : t) : t * list call :=
  if pause_callback s && negb (is_paused s) then (set_paused true s, [PauseVideo])
  else (s, []).

Definition thinking_end (s : t) : t * list call :=
  if unpause_callback s && is_paused s then (set_paused false s, [UnpauseVideo])
  else (s, []).

(** The engine reporting the start and the end of its thinking, in any
    order. *)
Inductive event : Type :=
| ThinkingStart
| ThinkingEnd.

Fixpoint run (s : t) (events : list event) : t * list call :=
  match events with
  | [] => (s, [])
  | e :: rest =>
      let '(s1, calls) :=
        match e with
        | ThinkingStart => thinking_start s
        | ThinkingEnd => thinking_end s
        end in
      let '(s2, more) := run s1 rest in
      (s2, calls ++ more)
  end.

(** Calls that take turns, the first one being [next]. *)
Fixpoint alternates (next : call) (calls : list call) : Prop :=
  match calls with
  | [] => True
  | c :: rest =>
      c = next /\
      alternates (match next with
                  | PauseVideo => UnpauseVideo
                  | UnpauseVideo => PauseVideo
                  end) rest
  end.

End CognitiveProcessingPause.

(** ** vision_capture.py: analysis, the vision pipeline, the camera *)

Module VisionPipeline.
Import VisionCapture.

(** What one call of the image-analysis service comes to: it answers, or
    raises [ConnectionError] or [TimeoutError] (the errors the decorator of
    [analyze_frame] retries), or raises something else. *)
Inductive attempt (A : Type) : Type :=
| Answered (answer : A)
| Transient
| Fatal.
Arguments Answered {A} _.
Arguments Transient {A}.
Arguments Fatal {A}.

(** [analyze_frame] under [@retry(stop=stop_after_attempt(3),
    retry=retry_if_exception_type((ConnectionError, TimeoutError)))]:
    [attempts k] is what the call number [k] (from 0) comes to.  The result
    is the answer, or [None] for the exception that leaves the function,
    with the number of calls made so far. *)
Fixpoint analyze_frame_from {A : Type} (budget made : nat)
    (attempts : nat -> attempt A) : option A * nat :=
  match budget with
  | O => (None, made)
  | S remaining =>
      match attempts made with
      | Answered answer => (Some answer, S made)
      | Fatal => (None, S made)
      | Transient => analyze_frame_from remaining (S made) attempts
      end
  end.

Definition analyze_frame {A : Type} (attempts : nat -> attempt A)
  : option A * nat :=
  analyze_frame_from 3 0 attempts.

Section Pipeline.
Variables frame gray A R : Type.
Variable cvtColor : frame -> gray.
Variable ssim : gray -> gray -> option Q.
(** The dictionary [analyze_frame] builds from the answer of the service,
    [self.frame_count] and [self.analysis_count]. *)
Variable build_response : A -> Z -> Z -> R.

Record t : Type := mk {
  detector : VisionCapture.t gray;
  latest_caption : option R
}.

Definition count_analysis (d : VisionCapture.t gray) : VisionCapture.t gray :=
  {| ssim_threshold := ssim_threshold d;
     max_interval_seconds := max_interval_seconds d;
     previous_frame_gray := previous_frame_gray d;
     last_analysis_time := last_analysis_time d;
     frame_count := frame_count d;
     analysis_count := analysis_count d + 1 |}.

(** [process_frame]: the analysis is asked for keyframes only, and its
    failure is [None]. *)
Definition process_frame (now : Q) (f : frame) (attempts : nat -> attempt A)
    (p : t) : option R * t :=
  let '(verdict, d) := is_keyframe cvtColor ssim now f (detector p) in
  if verdict then
    match fst (analyze_frame attempts) with
    | Some answer =>
        let d' := count_analysis d in
        let response := build_response answer (frame_count d') (analysis_count d') in
        (Some response, {| detector := d'; latest_caption := Some response |})
    | None => (None, {| detector := d; latest_caption := latest_caption p |})
    end
  else (None, {| detector := d; latest_caption := latest_caption p |}).

End Pipeline.

Arguments detector {gray R} _.
Arguments latest_caption {gray R} _.
Arguments process_frame {frame gray A R} _ _ _ _ _ _ _.

(** The last frame a run of the detector accepted, and the times of all
    the frames it accepted. *)
Fixpoint last_accepted {frame : Type} (verdicts : list bool)
    (frames : list (Q * frame)) : option (Q * frame) :=
  match verdicts, frames with
  | v :: vs, x :: xs =>
      match last_accepted vs xs with
      | Some y => Some y
      | None => if v then Some x else None
      end
  | _, _ => None
  end.

Fixpoint accepted_times {frame : Type} (verdicts : list bool)
    (frames : list (Q * frame)) : list Q :=
  match verdicts, frames with
  | v :: vs, (now, _) :: xs =>
      if v then now :: accepted_times vs xs else accepted_times vs xs
  | _, _ => []
  end.

(** Each time at least [gap] after the one before it. *)
Fixpoint spaced (gap : Q) (previous : Q) (times : list Q) : Prop :=
  match times with
  | [] => True
  | t :: rest => (previous + gap <= t)%Q /\ spaced gap t rest
  end.

End VisionPipeline.

Module Camera.

(** [self.cap]: [None], a capture that is not open, an open capture. *)
Inductive cap_state : Type :=
| NoCapture
| Closed
| Opened.

(** What one attempt of [start_camera] to open the camera comes to: a
    capture opens (with one backend or the other) and takes its settings;
    or none opens; or something raises, leaving [self.cap] as given. *)
Inductive open_attempt : Type :=
| Opens
| StaysClosed
| Raises (leaving : cap_state).

Record t : Type := mk {
  cap : cap_state;
  frame_count : Z;
  consecutive_failures : Z;
  max_camera_retries : nat;
  max_consecutive_failures : Z
}.

Definition init : t :=
  {| cap := NoCapture;
     frame_count := 0;
     consecutive_failures := 0;
     max_camera_retries := 3;
     max_consecutive_failures := 10 |}.

Definition set_cap (c : cap_state) (s : t) : t :=
  {| cap := c;
     frame_count := frame_count s;
     consecutive_failures := consecutive_failures s;
     max_camera_retries := max_camera_retries s;
     max_consecutive_failures := max_consecutive_failures s |}.

Definition set_failures (n : Z) (s : t) : t :=
  {| cap := cap s;
     frame_count := frame_count s;
     consecutive_failures := n;
     max_camera_retries := max_camera_retries s;
     max_consecutive_failures := max_consecutive_failures s |}.

Definition count_frame (s : t) : t :=
  {| cap := cap s;
     frame_count := frame_count s + 1;
     consecutive_failures := consecutive_failures s;
     max_camera_retries := max_camera_retries s;
     max_consecutive_failures := max_consecutive_failures s |}.

(** The camera as the program meets it: [opens k] is what the attempt
    number [k] to open it comes to, [reads k] what [cap.read()] number [k]
    returns ([None] for a failed read); the two counters tell how many of
    each were made. *)
Record world (frame : Type) : Type := mk_world {
  opens : nat -> open_attempt;
  reads : nat -> option frame;
  opened : nat;
  read : nat
}.
Arguments opens {frame} _ _.
Arguments reads {frame} _ _.
Arguments opened {frame} _.
Arguments read {frame} _.

Definition next_open {frame : Type} (w : world frame) : open_attempt * world frame :=
  (opens w (opened w),
   {| opens := opens w; reads := reads w; opened := S (opened w); read := read w |}).

Definition next_read {frame : Type} (w : world frame) : option frame * world frame :=
  (reads w (read w),
   {| opens := opens w; reads := reads w; opened := opened w; read := S (read w) |}).

(** The [for] loop of [start_camera], with [remaining] attempts to go. *)
Fixpoint start_camera_loop {frame : Type} (remaining : nat) (w : world frame) (s : t)
  : bool * t * world frame :=
  match remaining with
  | O => (false, s, w)
  | S remaining' =>
      let '(outcome, w1) := next_open w in
      match outcome with
      | Opens => (true, set_failures 0 (set_cap Opened s), w1)
      | StaysClosed => start_camera_loop remaining' w1 (set_cap Closed s)
      | Raises c => start_camera_loop remaining' w1 (set_cap c s)
      end
  end.

Definition start_camera {frame : Type} (w : world frame) (s : t)
  : bool * t * world frame :=
  start_camera_loop (max_camera_retries s) w s.

(** [get_frame] from its [cap.read()] on, the capture being open. *)
Definition read_frame {frame : Type} (w : world frame) (s : t)
  : option frame * t * world frame :=
  let '(got, w) := next_read w in
  match got with
  | Some f => (Some f, count_frame (set_failures 0 s), w)
  | None =>
      let s := set_failures (consecutive_failures s + 1) s in
      if max_consecutive_failures s <=? consecutive_failures s then
        let '(reconnected, s, w) := start_camera w s in
        if reconnected then
          let s := set_failures 0 s in
          let '(again, w) := next_read w in
          match again with
          | Some f => (Some f, count_frame s, w)
          | None => (None, s, w)
          end
        else (None, s, w)
      else (None, s, w)
  end.

(** [get_frame]: [Some frame] is [(True, frame)], [None] is
    [(False, None)]. *)
Definition get_frame {frame : Type} (w : world frame) (s : t)
  : option frame * t * world frame :=
  let '(available, s, w) :=
    match cap s with
    | Opened => (true, s, w)
    | _ => start_camera w s
    end in
  if negb available then (None, s, w) else read_frame w s.

(** The capture loop calling [get_frame] [n] times: the frames it got, in
    order. *)
Fixpoint capture {frame : Type} (n : nat) (w : world frame) (s : t)
  : list frame * t * world frame :=
  match n with
  | O => ([], s, w)
  | S n' =>
      let '(got, s1, w1) := get_frame w s in
      let '(frames, s2, w2) := capture n' w1 s1 in
      (match got with Some f => f :: frames | None => frames end, s2, w2)
  end.

(** The successful reads among the reads number [from], ..., [to - 1]. *)
Definition frames_read {frame : Type} (w : world frame) (from to : nat)
  : list frame :=
  omap (reads w) (seq from (to - from)).

End Camera.

(** The last [n] elements of a list. *)
Definition last_n {A : Type} (n : nat) (l : list A) : list A :=
  drop (length l - n) l.

(** ** Text: the string operations of the keyword checks *)

(** Strings are byte strings here; [lower] and [strip] are those of Python
    on ASCII text (on other text Python also maps and strips characters
    outside ASCII, which this embedding leaves alone). *)
Module Text.

Definition lower_char (c : ascii) : ascii :=
  let n := nat_of_ascii c in
  if ((65 <=? n) && (n <=? 90))%nat then ascii_of_nat (n + 32) else c.

(** [s.lower()]. *)
Fixpoint lower (s : string) : string :=
  match s with
  | EmptyString => EmptyString
  | String c rest => String (lower_char c) (lower rest)
  end.

(** [s.startswith(k)]. *)
Fixpoint startswith (k s : string) : bool :=
  match k, s with
  | EmptyString, _ => true
  | String a k', String b s' => Ascii.eqb a b && startswith k' s'
  | String _ _, EmptyString => false
  end.

(** [k in s]. *)
Fixpoint is_in (k s : string) : bool :=
  startswith k s ||
  match s with
  | EmptyString => false
  | String _ rest => is_in k rest
  end.

(** The characters [str.isspace] holds of, among ASCII. *)
Definition is_space (c : ascii) : bool :=
  let n := nat_of_ascii c in
  (((9 <=? n) && (n <=? 13)) || ((28 <=? n) && (n <=? 32)))%nat.

Fixpoint lstrip (s : string) : string :=
  match s with
  | EmptyString => EmptyString
  | String c rest => if is_space c then lstrip rest else s
  end.

Fixpoint rstrip (s : string) : string :=
  match s with
  | EmptyString => EmptyString
  | String c rest =>
      match rstrip rest with
      | EmptyString => if is_space c then EmptyString else String c EmptyString
      | kept => String c kept
      end
  end.

(** [s.strip()]. *)
Definition strip (s : string) : string := rstrip (lstrip s).

(** Some keyword of the list occurs in the text. *)
Definition any_in (keywords : list string) (text : string) : bool :=
  existsb (fun k => is_in k text) keywords.

End Text.

(** ** The three distress checks *)

Module Distress.

(** [CognitiveEngine.detect_distress]. *)
Definition engine_keywords : list string :=
  ["help"; "stop"; "pause"; "scared"; "afraid";
   "don't like"; "too much"; "overwhelming"; "can't watch";
   "turn off"; "feeling bad"; "upset"; "crying"].

Definition detect_distress (user_text : string) : bool :=
  Text.any_in engine_keywords (Text.lower user_text).

(** [MockCognitiveEngine.detect_distress]. *)
Definition mock_keywords : list string :=
  ["help"; "stop"; "scared"; "afraid"; "pause"].

Definition mock_detect_distress (user_text : string) : bool :=
  Text.any_in mock_keywords (Text.lower user_text).

(** [VoiceInterface.distress_keywords]. *)
Definition voice_keywords : list string :=
  ["help"; "stop"; "pause"; "scared"; "afraid";
   "don't like"; "too much"; "overwhelming"; "can't watch"].

End Distress.

(** ** voice_interface.py: the listener *)

Module VoiceInterface.

(** The calls made to the callbacks given to [start_listening]. *)
Inductive callback : Type :=
| WakeWord (text : string)
| DistressHeard (text : string)
| UserSpeech (text : string).

Record t : Type := mk {
  wake_word : string;
  distress_keywords : list string;
  last_distress_time : option Z;                    (* Optional[datetime] *)
  recognized_text_queue : Queue.t (string * string);  (* text, timestamp *)
  on_wake_word : bool;                              (* is a callback installed? *)
  on_distress : bool;
  on_user_speech : bool
}.

(** The fields [__init__] sets; [wake] is the value of [WAKE_WORD] in the
    environment, if any. *)
Definition init (wake : option string) : t :=
  {| wake_word := Text.lower (default "CineMate" wake);
     distress_keywords := Distress.voice_keywords;
     last_distress_time := None;
     recognized_text_queue := Queue.empty;
     on_wake_word := false;
     on_distress := false;
     on_user_speech := false |}.

(** [start_listening], for the callbacks it installs. *)
Definition install (wake distress speech : bool) (s : t) : t :=
  {| wake_word := wake_word s;
     distress_keywords := distress_keywords s;
     last_distress_time := last_distress_time s;
     recognized_text_queue := recognized_text_queue s;
     on_wake_word := wake;
     on_distress := distress;
     on_user_speech := speech |}.

(** [_on_recognized], for an event whose reason is [RecognizedSpeech] iff
    [recognized]; [stamp] is the clock reading written on the queue entry,
    [now] the one stored as [last_distress_time]. *)
Definition _on_recognized (stamp : string) (now : Z) (recognized : bool)
    (heard : string) (s : t) : t * list callback :=
  if negb recognized then (s, [])
  else
    let text := Text.strip heard in
    if String.eqb text "" then (s, [])
    else
      let text_lower := Text.lower text in
      let queue := Queue.put (text, stamp) (recognized_text_queue s) in
      let wake :=
        if Text.is_in (wake_word s) text_lower && on_wake_word s
        then [WakeWord text] else [] in
      let distressed := Text.any_in (distress_keywords s) text_lower in
      let distress :=
        if distressed && on_distress s then [DistressHeard text] else [] in
      let speech := if on_user_speech s then [UserSpeech text] else [] in
      ({| wake_word := wake_word s;
          distress_keywords := distress_keywords s;
          last_distress_time :=
            if distressed then Some now else last_distress_time s;
          recognized_text_queue := queue;
          on_wake_word := on_wake_word s;
          on_distress := on_distress s;
          on_user_speech := on_user_speech s |},
       wake ++ distress ++ speech).

(** [distress_detected_recently(seconds)], reading the clock as [now]. *)
Definition distress_detected_recently (seconds : Z) (now : Z) (s : t) : bool :=
  match last_distress_time s with
  | None => false
  | Some heard => now - heard <? seconds * 1000000
  end.

(** [get_recent_speech]: everything queued, and the queue emptied. *)
Definition get_recent_speech (s : t) : list (string * string) * t :=
  (recognized_text_queue s,
   {| wake_word := wake_word s;
      distress_keywords := distress_keywords s;
      last_distress_time := last_distress_time s;
      recognized_text_queue := Queue.empty;
      on_wake_word := on_wake_word s;
      on_distress := on_distress s;
      on_user_speech := on_user_speech s |}).

End VoiceInterface.

(** ** main.py: the orchestrator listening *)

Module Listening.
Import Orchestrator.

(** [_on_wake_word]. *)
Definition _on_wake_word (said : string) (s : Orchestrator.t)
  : Orchestrator.t * list speech :=
  let h := user_history s ++ [said] in
  (set_user_history (if (max_history s <? length h)%nat then tail h else h) s,
   [ {| text := JStr "Yes, I'm here! What can I help you with?";
        style := JStr "cheerful" |} ]).

(** The orchestrator's handler for a call of the listener; [now] is the
    clock reading of [_on_distress]. *)
Definition handle (now : Z) (c : VoiceInterface.callback) (s : Orchestrator.t)
  : Orchestrator.t * list speech :=
  match c with
  | VoiceInterface.WakeWord said => _on_wake_word said s
  | VoiceInterface.DistressHeard said => _on_distress now said s
  | VoiceInterface.UserSpeech said => (_on_user_speech said s, [])
  end.

Fixpoint handle_all (now : Z) (cs : list VoiceInterface.callback)
    (s : Orchestrator.t) : Orchestrator.t * list speech :=
  match cs with
  | [] => (s, [])
  | c :: rest =>
      let '(s1, spoken) := handle now c s in
      let '(s2, more) := handle_all now rest s1 in
      (s2, spoken ++ more)
  end.

(** The listener and the orchestrator, as [start] wires them: all three
    callbacks installed. *)
Definition hear (stamp : string) (now handled : Z) (heard : string)
    (vs : VoiceInterface.t * Orchestrator.t)
  : VoiceInterface.t * Orchestrator.t * list speech :=
  let '(v, calls) := VoiceInterface._on_recognized stamp now true heard (fst vs) in
  let '(s, spoken) := handle_all handled calls (snd vs) in
  (v, s, spoken).

(** Utterances heard one after the other, each with the clock readings of
    the listener and of the distress handler. *)
Fixpoint hear_all (utterances : list (Z * Z * string))
    (vs : VoiceInterface.t * Orchestrator.t)
  : VoiceInterface.t * Orchestrator.t :=
  match utterances with
  | [] => vs
  | (now, handled, heard) :: rest =>
      let '(v, s, _) := hear "" now handled heard vs in
      hear_all rest (v, s)
  end.

(** What the handling of a call of the listener enters in [user_history]. *)
Definition entered (c : VoiceInterface.callback) : list string :=
  match c with
  | VoiceInterface.WakeWord said => [said]
  | VoiceInterface.DistressHeard _ => []
  | VoiceInterface.UserSpeech said => [said]
  end.

(** What an utterance adds to [user_history]: nothing when it is blank,
    itself, and itself once more when it holds the wake word. *)
Definition history_entries (wake_word : string) (heard : string) : list string :=
  let text := Text.strip heard in
  if String.eqb text "" then []
  else if Text.is_in wake_word (Text.lower text) then [text; text]
  else [text].

(** One iteration of the main loop with the listener asked about recent
    distress, as the loop does. *)
Definition main_loop_iteration_listening (str_exn : exn -> string)
    (timestamp : string) (now : Z) (v : VoiceInterface.t)
    (r : CognitiveEngine.reply) (loop_count : Z) (s : Orchestrator.t)
  : Orchestrator.t * list speech :=
  main_loop_iteration str_exn timestamp
    (VoiceInterface.distress_detected_recently 10 now v) r loop_count s.

(** The [while] loop of [_main_loop]: one iteration per input (what the
    listener says about recent distress, what the reasoning call comes to,
    the time stamp), the counter incremented at the top of each. *)
Fixpoint main_loop (str_exn : exn -> string)
    (inputs : list (bool * CognitiveEngine.reply * string))
    (loop_count : Z) (s : Orchestrator.t) : Orchestrator.t * list speech :=
  match inputs with
  | [] => (s, [])
  | (distress_recent, r, timestamp) :: rest =>
      let loop_count := loop_count + 1 in
      let '(s1, spoken) :=
        main_loop_iteration str_exn timestamp distress_recent r loop_count s in
      let '(s2, more) := main_loop str_exn rest loop_count s1 in
      (s2, spoken ++ more)
  end.

End Listening.

(** *** The class [WizardOfOz] *)

Module WizardOfOz.

(** A call [_speak(text, emotion)]: spoken by the voice interface when
    there is one, printed otherwise. *)
Record utterance : Type := mk_utterance {
  text : string;
  emotion : string
}.


(** [self.response_emotions]. *)
Definition response_emotions : gmap string string :=
  list_to_map
    [ ("greeting", "cheerful"); ("scene", "calm"); ("question", "neutral");
      ("distress", "empathetic"); ("farewell", "warm"); ("generic", "neutral") ].

(** [self.response_emotions.get(response_type, "neutral")]. *)
Definition emotion_of (response_type : string) : string :=
  default "neutral" (response_emotions !! response_type).


(** [trigger_manual]. *)
Definition trigger_manual (response_type : string) : list utterance :=
  let said :=
    match DemoMode.FALLBACK_RESPONSES !! response_type with
    | Some found => found
    | None => DemoMode.FALLBACK_RESPONSES !!! "generic"
    end in
  [ {| text := said; emotion := emotion_of response_type |} ].



End WizardOfOz.

(** ** main.py: the activity log, and its reader in frontend/app.py *)

Module ActivityLog.

Record log_entry : Type := mk_entry {
  time : string;
  type : string;
  message : string
}.

(** The dictionary kept in [activity_log.json]. *)
Record activity : Type := mk {
  logs : list log_entry;
  scene : string;
  mood : string;
  thought : string;
  interventions : option Z         (* read with [.get("interventions", 0)] *)
}.

(** The file: absent, present with something that does not load as such a
    dictionary, or holding one. *)
Inductive file : Type :=
| Missing
| Unreadable
| Stored (data : activity).

Definition fresh : activity :=
  {| logs := []; scene := ""; mood := "Calm"; thought := "";
     interventions := Some 0 |}.

(** [_log_activity(log_type, message, mood)], stamped with
    [datetime.now().strftime("%H:%M:%S")]: the file afterwards.  An
    exception while reading leaves the function without a write. *)
Definition _log_activity (stamp log_type said current_mood : string) (f : file)
  : file :=
  let loaded :=
    match f with
    | Missing => Some fresh
    | Stored data => Some data
    | Unreadable => None
    end in
  match loaded with
  | None => f
  | Some data =>
      let entry := {| time := stamp; type := log_type; message := said |} in
      let is_action := String.eqb log_type "ACTION" in
      Stored
        {| logs := last_n 50 (logs data ++ [entry]);
           scene := if String.eqb log_type "VISION" then said else scene data;
           mood := if String.eqb current_mood "" then mood data else current_mood;
           thought := if is_action then said else thought data;
           interventions :=
             if is_action then Some (default 0 (interventions data) + 1)
             else interventions data |}
  end.

(** A call of [_log_activity]: stamp, type, message, mood. *)
Definition call : Type := (string * string * string * string)%type.

Definition entry_of (c : call) : log_entry :=
  let '(stamp, log_type, said, _) := c in
  {| time := stamp; type := log_type; message := said |}.

Definition log_all (calls : list call) (f : file) : file :=
  fold_left (fun f c =>
               let '(stamp, log_type, said, current_mood) := c in
               _log_activity stamp log_type said current_mood f)
            calls f.

Definition is_action (c : call) : bool :=
  let '(_, log_type, _, _) := c in String.eqb log_type "ACTION".

(** The entries and the counter a file holds. *)
Definition stored_logs (f : file) : list log_entry :=
  match f with
  | Stored data => logs data
  | _ => []
  end.

Definition stored_interventions (f : file) : option Z :=
  match f with
  | Stored data => interventions data
  | Missing => Some 0
  | Unreadable => None
  end.

(** *** [load_state] of the dashboard, for the part read from the log *)




End ActivityLog.

(** ** main.py: the vision worker *)

Module VisionWorker.
Import VisionPipeline.

Section Worker.
Variables frame gray : Type.
Variable cvtColor : frame -> gray.
Variable ssim : gray -> gray -> option Q.

(** The worker reads of a response its caption text, time stamp, people
    count and dense captions: the response is taken to be these. *)
Abbreviation response := Orchestrator.caption_data.

Record t : Type := mk {
  last_analysis_time : Q;            (* the local variable of the loop *)
  pipeline : VisionPipeline.t gray response;
  orchestrator : Orchestrator.t;
  log : ActivityLog.file
}.

Definition MIN_ANALYSIS_INTERVAL : Q := 15.

(** What one pass of the loop meets: the outcome of [get_frame], the
    reading of [time.time()] by the loop and the one by [is_keyframe], what
    the calls of the analysis service come to, and the time stamp of the
    log line. *)
Record pass : Type := mk_pass {
  got : option frame;
  current_time : Q;
  detector_time : Q;
  attempts : nat -> attempt response;
  stamp : string
}.

(** One pass of the loop of [_vision_worker] (the frame written for the
    dashboard left out): the worker afterwards, and the time of the call of
    [process_frame] if one was made.  [analyze_frame] puts a caption in
    every response, so the tests [if result] and [result.get("caption")]
    hold of each. *)
Definition iteration (i : pass) (w : t) : t * list Q :=
  match got i with
  | None => (w, [])
  | Some f =>
      if Qgeb (current_time i - last_analysis_time w) MIN_ANALYSIS_INTERVAL then
        let '(result, p) :=
          process_frame cvtColor ssim (fun answer _ _ => answer)
            (detector_time i) f (attempts i) (pipeline w) in
        match result with
        | Some item =>
            ({| last_analysis_time := current_time i;
                pipeline := p;
                orchestrator := Orchestrator.publish item (orchestrator w);
                log := ActivityLog._log_activity (stamp i) "VISION"
                         (String.substring 0 60 (Orchestrator.caption item))
                         "Calm" (log w) |},
             [current_time i])
        | None =>
            ({| last_analysis_time := current_time i;
                pipeline := p;
                orchestrator := orchestrator w;
                log := log w |},
             [current_time i])
        end
      else (w, [])
  end.

Fixpoint run (passes : list pass) (w : t) : t * list Q :=
  match passes with
  | [] => (w, [])
  | i :: rest =>
      let '(w1, called) := iteration i w in
      let '(w2, more) := run rest w1 in
      (w2, called ++ more)
  end.

End Worker.

Arguments last_analysis_time {gray} _.
Arguments pipeline {gray} _.
Arguments orchestrator {gray} _.
Arguments log {gray} _.
Arguments iteration {frame gray} _ _ _ _.
Arguments run {frame gray} _ _ _ _.

End VisionWorker.

(** ** mock_services.py and the demo loop of main.py *)

Module MockServices.

Record mock_scene : Type := mk_scene {
  scene_caption : string;
  scene_people : Z;
  scene_tags : list string;
  scene_mood : string
}.

Definition MOCK_SCENES : list mock_scene :=
  [ {| scene_caption := "Scene: 2 persons detected, living room, television, couch";
       scene_people := 2;
       scene_tags := ["person"; "living room"; "television"; "couch"; "indoor"];
       scene_mood := "Calm" |};
    {| scene_caption := "Scene: 1 person detected, elderly person, sitting, window";
       scene_people := 1;
       scene_tags := ["person"; "elderly"; "sitting"; "window"; "indoor"];
       scene_mood := "Calm" |};
    {| scene_caption := "Scene: 3 persons detected, family gathering, dining table";
       scene_people := 3;
       scene_tags := ["person"; "family"; "dining"; "table"; "happy"];
       scene_mood := "Happy" |};
    {| scene_caption := "Scene: 1 person detected, person looking sad, alone";
       scene_people := 1;
       scene_tags := ["person"; "sad"; "alone"; "emotional"];
       scene_mood := "Sad" |};
    {| scene_caption := "Scene: 2 persons detected, animated conversation, gestures";
       scene_people := 2;
       scene_tags := ["person"; "conversation"; "gestures"; "talking"];
       scene_mood := "Engaged" |} ].

(** [MOCK_AI_RESPONSES]: should_speak, emotion, content, reasoning. *)
Definition MOCK_AI_RESPONSES : list (bool * string * string * string) :=
  [ (true, "calm",
     "It looks like a quiet moment in the scene. The characters seem to be having a thoughtful conversation.",
     "Scene shows calm interaction, good time to provide context");
    (false, "neutral", "", "Scene is mundane, no need to interrupt");
    (true, "empathetic",
     "This seems like an emotional moment. Take your time if you need a break.",
     "Detected emotional content in scene");
    (true, "cheerful",
     "What a lovely scene! The family looks so happy together.",
     "Positive emotional content detected");
    (false, "neutral", "", "Dialogue in progress, staying quiet") ].

(** The dictionary of a mock response. *)
Definition response_dict (r : bool * string * string * string)
  : gmap string json :=
  let '(should_speak, emotion, content, reasoning) := r in
  <["should_speak" := JBool should_speak]>
  (<["emotion" := JStr emotion]>
  (<["content" := JStr content]>
  (<["reasoning" := JStr reasoning]> ∅))).

(** The result of the mock analysis. *)
Record result : Type := mk_result {
  timestamp : string;
  frame_number : nat;
  analysis_number : nat;
  caption_text : string;
  people_count : Z;
  tags : list string
}.

(** [MockVisionCapture]. *)
Record vision : Type := mk_vision {
  frame_count : nat;
  analysis_count : nat;
  _scene_index : nat;
  latest_caption : option result
}.

Definition vision_init : vision :=
  {| frame_count := 0; analysis_count := 0; _scene_index := 0;
     latest_caption := None |}.

(** [get_frame], for its effect (the frame returned is always the same). *)
Definition get_frame (v : vision) : vision :=
  {| frame_count := S (frame_count v);
     analysis_count := analysis_count v;
     _scene_index := _scene_index v;
     latest_caption := latest_caption v |}.

Definition no_scene : mock_scene :=
  {| scene_caption := ""; scene_people := 0; scene_tags := []; scene_mood := "" |}.

(** [process_frame], stamped with [datetime.now().isoformat()]. *)
Definition process_frame (stamp : string) (v : vision) : option result * vision :=
  if negb (frame_count v mod 30 =? 0)%nat then (None, v)
  else
    let analysed := S (analysis_count v) in
    let index := (S (_scene_index v) mod length MOCK_SCENES)%nat in
    let scene := nth index MOCK_SCENES no_scene in
    let r := {| timestamp := stamp;
                frame_number := frame_count v;
                analysis_number := analysed;
                caption_text := scene_caption scene;
                people_count := scene_people scene;
                tags := scene_tags scene |} in
    (Some r,
     {| frame_count := frame_count v;
        analysis_count := analysed;
        _scene_index := index;
        latest_caption := Some r |}).

(** [MockCognitiveEngine.analyze_context]: the response index afterwards
    and the decision. *)
Definition analyze_context (stamp : string) (_response_index : nat)
  : nat * gmap string json :=
  let index := (S _response_index mod length MOCK_AI_RESPONSES)%nat in
  (index,
   <["metadata" := JObj [("azure_service", JStr "[MOCK] Demo Mode - No Azure OpenAI");
                         ("timestamp", JStr stamp);
                         ("demo_mode", JBool true)]]>
     (response_dict (nth index MOCK_AI_RESPONSES (false, "", "", "")))).

(** One pass of the demo loop of [main]: a frame, its mock analysis, and
    for an analysed frame the mock decision, spoken if it says so. *)
Definition demo_pass (stamp : string) (state : vision * nat)
  : vision * nat * list Orchestrator.speech :=
  let '(v, index) := state in
  let '(analysed, v) := process_frame stamp (get_frame v) in
  match analysed with
  | Some _ =>
      let '(index, decision) := analyze_context stamp index in
      (v, index, Orchestrator.speak_decision decision)
  | None => (v, index, [])
  end.

Fixpoint demo_loop (stamps : list string) (state : vision * nat)
  : vision * nat * list Orchestrator.speech :=
  match stamps with
  | [] => (state, [])
  | stamp :: rest =>
      let '(v, index, spoken) := demo_pass stamp state in
      let '(final, more) := demo_loop rest (v, index) in
      (final, spoken ++ more)
  end.

(** What is spoken for the mock response number [i]. *)
Definition mock_says (i : nat) : list Orchestrator.speech :=
  Orchestrator.speak_decision
    (response_dict (nth (i mod 5) MOCK_AI_RESPONSES (false, "", "", ""))).

End MockServices.

(* ===================================================================== *)
(** * Part II: the properties                                             *)
(* ===================================================================== *)

(** ** Comparisons on rationals *)

Lemma Qgtb_true (x y : Q) : Qgtb x y = true <-> (y < x)%Q.
Proof.
  unfold Qgtb. rewrite negb_true_iff, <- not_true_iff_false, Qle_bool_iff.
  split; [apply Qnot_le_lt | apply Qlt_not_le].
Qed.

Lemma Qgtb_false (x y : Q) : Qgtb x y = false <-> (x <= y)%Q.
Proof. unfold Qgtb. rewrite negb_false_iff. apply Qle_bool_iff. Qed.

Lemma Qltb_true (x y : Q) : Qltb x y = true <-> (x < y)%Q.
Proof. unfold Qltb. apply (Qgtb_true y x). Qed.

Lemma Qltb_false (x y : Q) : Qltb x y = false <-> (y <= x)%Q.
Proof. unfold Qltb. apply (Qgtb_false y x). Qed.

Lemma Qgeb_true (x y : Q) : Qgeb x y = true <-> (y <= x)%Q.
Proof. unfold Qgeb. apply Qle_bool_iff. Qed.

(** ** The audio gate *)

Module AudioMonitorProps.
Import AudioMonitor.



Lemma observe_current s x : current_db (observe s x) = snd x.
Proof.
  unfold observe, _process_db_level; simpl.
  destruct (Qgtb (snd x) (threshold_db s)); reflexivity.
Qed.



Lemma observe_all_app s xs ys :
  observe_all s (xs ++ ys) = observe_all (observe_all s xs) ys.
Proof. unfold observe_all. apply fold_left_app. Qed.




(** The current level is the last sample's (0.0 before any sample). *)
Lemma observe_all_current thr qd xs :
  current_db (observe_all (init thr qd) xs) = List.last (map snd xs) 0%Q.
Proof.
  destruct xs as [|x xs] using rev_ind; [reflexivity|].
  rewrite observe_all_app, map_app. simpl. rewrite List.last_last.
  apply observe_current.
Qed.



End AudioMonitorProps.


(** ** The keyframe detector *)

Module VisionCaptureProps.
Import VisionCapture.

Section Detector.
Variables frame gray : Type.
Variable cvtColor : frame -> gray.
Variable ssim : gray -> gray -> option Q.

Abbreviation detector := (VisionCapture.t gray).
Abbreviation is_keyframe := (VisionCapture.is_keyframe cvtColor ssim).
Abbreviation evaluate_all := (VisionCapture.evaluate_all cvtColor ssim).

(** Each call either accepts and remembers, or rejects and leaves the
    detector as it was. *)
Lemma is_keyframe_cases (now : Q) (f : frame) (s : detector) :
  is_keyframe now f s = (true, remember (cvtColor f) now s) \/
  is_keyframe now f s = (false, s).
Proof.
  unfold VisionCapture.is_keyframe.
  destruct (previous_frame_gray s) as [p|]; [|left; reflexivity].
  destruct (Qgeb _ _); [left; reflexivity|].
  destruct (ssim p (cvtColor f)) as [sc|]; [|right; reflexivity].
  destruct (Qltb sc _); [left|right]; reflexivity.
Qed.

(** The verdict on a later frame, before the interval has run out. *)
Lemma is_keyframe_content (now : Q) (f : frame) (s : detector) (p : gray) :
  previous_frame_gray s = Some p ->
  (now - last_analysis_time s < max_interval_seconds s)%Q ->
  is_keyframe now f s =
    match ssim p (cvtColor f) with
    | Some similarity =>
        if Qltb similarity (ssim_threshold s)
        then (true, remember (cvtColor f) now s) else (false, s)
    | None => (false, s)
    end.
Proof.
  intros Hp Hlt. unfold VisionCapture.is_keyframe. rewrite Hp.
  replace (Qgeb _ _) with false; [reflexivity|].
  symmetry. apply not_true_iff_false. rewrite Qgeb_true.
  apply Qlt_not_le, Hlt.
Qed.

(** C4. A false verdict leaves the detector exactly as it was, which covers
    the branch where the similarity routine fails; a true verdict is the
    only one that stores the frame and the time.  Hence the same frame
    evaluated again, at any time before the interval has run out, is
    rejected again. *)
Theorem false_verdict_keeps_state (now : Q) (f : frame) (s : detector) :
  (fst (is_keyframe now f s) = false ->
     snd (is_keyframe now f s) = s /\
     forall later,
       (later - last_analysis_time s < max_interval_seconds s)%Q ->
       is_keyframe later f (snd (is_keyframe now f s)) = (false, s)) /\
  (forall p,
     previous_frame_gray s = Some p ->
     (now - last_analysis_time s < max_interval_seconds s)%Q ->
     ssim p (cvtColor f) = None ->
     is_keyframe now f s = (false, s)) /\
  (snd (is_keyframe now f s) <> s -> fst (is_keyframe now f s) = true).
Proof.
  split; [|split].
  - intros Hfalse.
    assert (Hsame : is_keyframe now f s = (false, s)).
    { destruct (is_keyframe_cases now f s) as [E|E]; [|exact E].
      rewrite E in Hfalse. discriminate. }
    rewrite Hsame. simpl. split; [reflexivity|].
    intros later Hlater.
    (* the call was not the first one, and only the content branch rejects *)
    unfold VisionCapture.is_keyframe in Hsame |- *.
    destruct (previous_frame_gray s) as [p|] eqn:Hp; [|discriminate].
    replace (Qgeb (later - last_analysis_time s) (max_interval_seconds s))
      with false
      by (symmetry; apply not_true_iff_false; rewrite Qgeb_true;
          apply Qlt_not_le, Hlater).
    destruct (Qgeb (now - last_analysis_time s) (max_interval_seconds s));
      [discriminate|].
    destruct (ssim p (cvtColor f)) as [sc|]; [|reflexivity].
    destruct (Qltb sc (ssim_threshold s)); [discriminate|reflexivity].
  - intros p Hp Hlt Hfail.
    rewrite (is_keyframe_content now f s p Hp Hlt), Hfail. reflexivity.
  - intros Hchanged.
    destruct (is_keyframe_cases now f s) as [E|E]; rewrite E in *; simpl in *.
    + reflexivity.
    + exfalso. apply Hchanged. reflexivity.
Qed.

(** C5. Once at least [max_interval_seconds] have passed since the last
    accepted keyframe, the next frame is a keyframe whatever the similarity
    routine would say, and the frame and the time are remembered. *)
Theorem time_trigger_accepts (now : Q) (f : frame) (s : detector) :
  (max_interval_seconds s <= now - last_analysis_time s)%Q ->
  is_keyframe now f s = (true, remember (cvtColor f) now s) /\
  previous_frame_gray (snd (is_keyframe now f s)) = Some (cvtColor f) /\
  last_analysis_time (snd (is_keyframe now f s)) = now.
Proof.
  intros Hge.
  assert (E : is_keyframe now f s = (true, remember (cvtColor f) now s)).
  { unfold VisionCapture.is_keyframe.
    destruct (previous_frame_gray s) as [p|]; [|reflexivity].
    apply Qgeb_true in Hge. rewrite Hge. reflexivity. }
  rewrite E. repeat split.
Qed.

(** C6. On a later frame evaluated before the interval has run out, the
    verdict is true exactly when the similarity routine yields a score
    strictly below the threshold.  In particular, with threshold 0.95 and
    interval 15 s, a second frame identical to the first is rejected (the
    similarity of a frame with itself being 1 whenever it is defined). *)
Theorem content_trigger_iff (now : Q) (f : frame) (s : detector) (p : gray) :
  (previous_frame_gray s = Some p ->
   (now - last_analysis_time s < max_interval_seconds s)%Q ->
   (fst (is_keyframe now f s) = true <->
    exists similarity,
      ssim p (cvtColor f) = Some similarity /\
      (similarity < ssim_threshold s)%Q)) /\
  ((forall g score, ssim g g = Some score -> (score == 1)%Q) ->
   forall first second,
     (second - first < 15)%Q ->
     let s1 := snd (is_keyframe first f (init gray (95 # 100) 15)) in
     is_keyframe second f s1 = (false, s1)).
Proof.
  split.
  - intros Hp Hlt. rewrite (is_keyframe_content now f s p Hp Hlt).
    destruct (ssim p (cvtColor f)) as [sc|].
    + destruct (Qltb sc (ssim_threshold s)) eqn:E; simpl.
      * apply Qltb_true in E. split; [|reflexivity].
        intros _. exists sc. split; [reflexivity|exact E].
      * apply Qltb_false in E. split; [discriminate|].
        intros (sc' & Hsc & Hlt'). injection Hsc as <-.
        exfalso. apply (Qlt_not_le _ _ Hlt'), E.
    + simpl. split; [discriminate|].
      intros (sc' & Hsc & _). discriminate.
  - intros Hrefl first second Hsoon. simpl.
    rewrite (is_keyframe_content second f _ (cvtColor f)); simpl;
      [|reflexivity|exact Hsoon].
    destruct (ssim (cvtColor f) (cvtColor f)) as [sc|] eqn:E; [|reflexivity].
    replace (Qltb sc (95 # 100)) with false; [reflexivity|].
    symmetry. apply Qltb_false. rewrite (Hrefl _ _ E). discriminate.
Qed.

(** C7. Whatever the frames, the first one evaluated is a keyframe, and the
    detector remembers it together with the time of the call. *)
Theorem first_frame_is_keyframe
    (threshold max_interval now : Q) (f : frame) (rest : list (Q * frame)) :
  let s0 := init gray threshold max_interval in
  is_keyframe now f s0 = (true, remember (cvtColor f) now s0) /\
  previous_frame_gray (snd (is_keyframe now f s0)) = Some (cvtColor f) /\
  last_analysis_time (snd (is_keyframe now f s0)) = now /\
  head (fst (evaluate_all s0 ((now, f) :: rest))) = Some true.
Proof.
  simpl. repeat split.
  destruct (evaluate_all _ rest). reflexivity.
Qed.

End Detector.

(** The theorems at work on rows of pixels. *)

Lemma false_verdict_keeps_state_witness :
  VisionCapture.is_keyframe row_gray row_ssim 5 black (seen black 0)
    = (false, seen black 0) /\
  VisionCapture.is_keyframe row_gray row_ssim 7 short (seen black 0)
    = (false, seen black 0).
Proof.
  pose proof (false_verdict_keeps_state _ _ row_gray row_ssim 5 black (seen black 0))
    as (Hfalse & _ & _).
  pose proof (false_verdict_keeps_state _ _ row_gray row_ssim 7 short (seen black 0))
    as (_ & Hfail & _).
  split.
  - destruct (Hfalse eq_refl) as [_ Hagain].
    apply (Hagain 5%Q). reflexivity.
  - apply (Hfail (row_gray black)); reflexivity.
Defined.

Lemma time_trigger_accepts_witness :
  VisionCapture.is_keyframe row_gray row_ssim 15 black (seen black 0)
    = (true, seen black 15).
Proof.
  apply (time_trigger_accepts _ _ row_gray row_ssim 15 black (seen black 0)).
  vm_compute. discriminate.
Defined.

Lemma content_trigger_iff_witness :
  fst (VisionCapture.is_keyframe row_gray row_ssim 5 white (seen black 0)) = true /\
  VisionCapture.is_keyframe row_gray row_ssim 5 black (seen black 0)
    = (false, seen black 0).
Proof.
  pose proof (content_trigger_iff _ _ row_gray row_ssim 5 white (seen black 0)
                (row_gray black)) as [Hiff _].
  pose proof (content_trigger_iff _ _ row_gray row_ssim 5 black (seen black 0)
                (row_gray black)) as [_ Hsame].
  split.
  - apply (Hiff eq_refl eq_refl). exists 0%Q. split; reflexivity.
  - apply (Hsame) with (first := 0%Q); [|reflexivity].
    intros g score. unfold row_ssim.
    rewrite Nat.eqb_refl. simpl.
    rewrite bool_decide_eq_true_2 by reflexivity.
    intros [= <-]. reflexivity.
Defined.

End VisionCaptureProps.


(** ** The scripted timeline *)

Module DemoModeProps.
Import DemoMode.

Lemma withinb_within (bounds : Q * option Q) (seconds : Q) :
  withinb bounds seconds = true <-> within bounds seconds.
Proof.
  unfold withinb, within. rewrite andb_true_iff, Qle_bool_iff.
  destruct (snd bounds) as [hi|].
  - rewrite Qltb_true. reflexivity.
  - tauto.
Qed.

(** On a key that reads as an interval, one turn of the loop returns the
    entry when the interval holds the time and moves on otherwise. *)
Lemma find_time_range_step seconds time_range data rest bounds :
  interval_of time_range = Some bounds ->
  find_time_range seconds ((time_range, data) :: rest) =
    if withinb bounds seconds then Returned (Some data)
    else find_time_range seconds rest.
Proof.
  unfold interval_of, withinb. simpl.
  destruct (contains "-" time_range).
  - destruct (split "-" time_range) as [|start [|end_ [|]]]; try discriminate.
    destruct (float start) as [lo|]; [|discriminate].
    destruct (float end_) as [hi|]; [|discriminate].
    intros [= <-]. simpl.
    destruct (Qle_bool lo seconds); reflexivity.
  - destruct (endswith "+" time_range); [|discriminate].
    destruct (float (but_last time_range)) as [lo|]; [|discriminate].
    intros [= <-]. simpl. unfold Qgeb.
    destruct (Qle_bool lo seconds); reflexivity.
Qed.

Lemma covers_tail table entry data seconds :
  covers table data seconds -> covers (entry :: table) data seconds.
Proof.
  intros (k & b & Hin & Hk & Hw). exists k, b. split; [right; exact Hin|].
  split; assumption.
Qed.

(** On a table of well-formed keys the loop never raises: it returns an
    entry that covers the time, or runs to its end when none does. *)
Lemma find_time_range_sound seconds table :
  well_formed table ->
  (exists data,
     find_time_range seconds table = Returned (Some data) /\
     covers table data seconds) \/
  (find_time_range seconds table = Returned None /\
   forall data, ~ covers table data seconds).
Proof.
  induction 1 as [|[k d] rest [b Hk] Hrest IH].
  - right. split; [reflexivity|].
    intros data (? & ? & [] & _).
  - simpl in Hk. rewrite (find_time_range_step _ _ _ _ _ Hk).
    destruct (withinb b seconds) eqn:Hb.
    + left. exists d. split; [reflexivity|].
      exists k, b. split; [left; reflexivity|].
      split; [exact Hk|]. apply withinb_within, Hb.
    + destruct IH as [(d' & Hfind & Hcov)|[Hfind Hnone]].
      * left. exists d'. split; [exact Hfind|]. apply covers_tail, Hcov.
      * right. split; [exact Hfind|].
        intros data (k' & b' & [Heq|Hin] & Hk' & Hw).
        -- injection Heq as <- <-. rewrite Hk in Hk'. injection Hk' as <-.
           apply withinb_within in Hw. congruence.
        -- apply (Hnone data). exists k', b'.
           split; [exact Hin|]. split; assumption.
Qed.

Lemma demo_table_well_formed : well_formed DEMO_CLIP_RESPONSES.
Proof. repeat constructor; vm_compute; eexists; reflexivity. Qed.


Lemma demo_responses_nonempty time_range data :
  In (time_range, data) DEMO_CLIP_RESPONSES -> response data <> "".
Proof.
  simpl. intros H.
  repeat (destruct H as [H|H]; [injection H as <- <-; discriminate|]).
  contradiction.
Qed.

Lemma generic_response :
  FALLBACK_RESPONSES !! "generic" =
    Some "That's an interesting scene. Let me know if you'd like me to describe anything specific.".
Proof. vm_compute. reflexivity. Qed.

Lemma scene_description_response :
  FALLBACK_RESPONSES !! "scene_description" =
    Some "I can see an emotional scene unfolding here. The characters seem to be sharing an important moment.".
Proof. vm_compute. reflexivity. Qed.

(** The lookup on the demo table, for any time. *)
Lemma get_response_for_timestamp_demo now seconds s :
  clip_responses s = DEMO_CLIP_RESPONSES ->
  let time := match seconds with
              | None => get_elapsed_seconds now s
              | Some given => given
              end in
  (exists data,
     get_response_for_timestamp now seconds s = Returned data /\
     covers DEMO_CLIP_RESPONSES data time) \/
  (get_response_for_timestamp now seconds s = Returned (generic_entry s) /\
   forall data, ~ covers DEMO_CLIP_RESPONSES data time).
Proof.
  intros Htable time. unfold get_response_for_timestamp. rewrite Htable.
  fold time.
  destruct (find_time_range_sound time _ demo_table_well_formed)
    as [(d & Hfind & Hcov)|[Hfind Hnone]]; rewrite Hfind.
  - left. exists d. split; [reflexivity|exact Hcov].
  - right. split; [reflexivity|exact Hnone].
Qed.



End DemoModeProps.


(** ** The reasoning engine *)

Module CognitiveEngineProps.
Import CognitiveEngine.

Lemma lookup_setdefault (k k' : string) (v : json) (d : gmap string json) :
  setdefault k v d !! k' =
    if decide (k = k') then Some (default v (d !! k)) else d !! k'.
Proof.
  unfold setdefault. destruct (d !! k) as [w|] eqn:E.
  - destruct (decide (k = k')) as [<-|]; [rewrite E|]; reflexivity.
  - rewrite lookup_insert. destruct (decide (k = k')); reflexivity.
Qed.

Lemma lookup_validate_should_speak (d : gmap string json) :
  validate d !! "should_speak" = Some (default (JBool false) (d !! "should_speak")).
Proof. unfold validate. rewrite !lookup_setdefault. reflexivity. Qed.

Lemma lookup_validate_emotion (d : gmap string json) :
  validate d !! "emotion" = Some (default (JStr "neutral") (d !! "emotion")).
Proof. unfold validate. rewrite !lookup_setdefault. reflexivity. Qed.

Lemma lookup_validate_content (d : gmap string json) :
  validate d !! "content" = Some (default (JStr "") (d !! "content")).
Proof. unfold validate. rewrite !lookup_setdefault. reflexivity. Qed.

Lemma lookup_validate_reasoning (d : gmap string json) :
  validate d !! "reasoning" =
    Some (default (JStr "No reasoning provided") (d !! "reasoning")).
Proof. unfold validate. rewrite !lookup_setdefault. reflexivity. Qed.

Lemma lookup_validate_other (d : gmap string json) (k : string) :
  k <> "should_speak" -> k <> "emotion" -> k <> "content" -> k <> "reasoning" ->
  validate d !! k = d !! k.
Proof.
  intros H1 H2 H3 H4. unfold validate. rewrite !lookup_setdefault.
  repeat (destruct (decide _) as [E|_]; [symmetry in E; contradiction|]).
  reflexivity.
Qed.

(** The fields of the fallback decision. *)
Lemma fallback_fields timestamp reason :
  let d := _fallback_response timestamp reason in
  d !! "should_speak" = Some (JBool false) /\
  d !! "emotion" = Some (JStr "neutral") /\
  d !! "content" = Some (JStr "") /\
  d !! "reasoning" = Some (JStr (String.append "Fallback due to error: " reason)).
Proof.
  unfold _fallback_response. repeat split.
  all: repeat (first [rewrite lookup_insert_eq; reflexivity
                     | rewrite lookup_insert_ne by discriminate]).
Qed.

(** A failed call yields the fallback decision. *)
Lemma analyze_context_failed str_exn deployment timestamp r :
  failed r ->
  exists reason,
    analyze_context str_exn deployment timestamp r =
      _fallback_response timestamp reason.
Proof.
  destruct r as [message| |v]; simpl.
  - intros _. exists message. reflexivity.
  - intros _. eexists. reflexivity.
  - destruct v; simpl; intros H; try contradiction; eexists; reflexivity.
Qed.

(** C8, as the code has it.  When the reply parses to an object whose
    present decision fields are well typed, [analyze_context] returns that
    object (it is not replaced by the fallback) with each missing field at
    its default: [should_speak] false, [emotion] neutral, [content] the
    empty string, [reasoning] the string No reasoning provided; the other
    fields are kept and [metadata] is added. *)
Theorem missing_fields_defaulted
    (str_exn : exn -> string) (deployment timestamp : string)
    (fields : list (string * json)) :
  let given : gmap string json := list_to_map (reverse fields) in
  let decision :=
    analyze_context str_exn deployment timestamp (Parsed (JObj fields)) in
  well_typed given ->
  decision !! "should_speak" = Some (default (JBool false) (given !! "should_speak")) /\
  decision !! "emotion" = Some (default (JStr "neutral") (given !! "emotion")) /\
  decision !! "content" = Some (default (JStr "") (given !! "content")) /\
  decision !! "reasoning" =
    Some (default (JStr "No reasoning provided") (given !! "reasoning")) /\
  decision !! "metadata" =
    Some (JObj [("azure_service", JStr azure_service);
                ("timestamp", JStr timestamp);
                ("model", JStr deployment)]) /\
  (forall k,
     k <> "should_speak" -> k <> "emotion" -> k <> "content" ->
     k <> "reasoning" -> k <> "metadata" ->
     decision !! k = given !! k).
Proof.
  intros given decision (Hspeak & Hemotion & Hcontent & Hreasoning).
  set (meta := JObj [("azure_service", JStr azure_service);
                     ("timestamp", JStr timestamp);
                     ("model", JStr deployment)]).
  assert (Hdecision : decision = <["metadata" := meta]> (validate given)).
  { unfold decision, analyze_context. fold given. fold meta.
    set (result := <["metadata" := meta]> (validate given)).
    assert (Hc : exists c, result !!! "content" = JStr c).
    { unfold result. rewrite lookup_total_alt, lookup_insert_ne by discriminate.
      rewrite lookup_validate_content. simpl.
      destruct (given !! "content") as [v|]; simpl; [|eauto].
      apply Hcontent. reflexivity. }
    assert (Hr : exists c, result !!! "reasoning" = JStr c).
    { unfold result. rewrite lookup_total_alt, lookup_insert_ne by discriminate.
      rewrite lookup_validate_reasoning. simpl.
      destruct (given !! "reasoning") as [v|]; simpl; [|eauto].
      apply Hreasoning. reflexivity. }
    destruct Hc as [c Hc], Hr as [c' Hr].
    destruct (truthy (result !!! "should_speak")); [rewrite Hc|rewrite Hr];
      reflexivity. }
  rewrite Hdecision.
  split; [|split; [|split; [|split; [|split]]]].
  - rewrite lookup_insert_ne by discriminate. apply lookup_validate_should_speak.
  - rewrite lookup_insert_ne by discriminate. apply lookup_validate_emotion.
  - rewrite lookup_insert_ne by discriminate. apply lookup_validate_content.
  - rewrite lookup_insert_ne by discriminate. apply lookup_validate_reasoning.
  - apply lookup_insert_eq.
  - intros k H1 H2 H3 H4 H5.
    rewrite lookup_insert_ne by (intros E; symmetry in E; contradiction).
    apply lookup_validate_other; assumption.
Qed.

(** A reply with every decision field missing. *)
Lemma missing_fields_defaulted_witness :
  let decision := analyze_context exn_class "gpt-4o" "T" (Parsed (JObj [])) in
  decision !! "should_speak" = Some (JBool false) /\
  decision !! "emotion" = Some (JStr "neutral") /\
  decision !! "content" = Some (JStr "") /\
  decision !! "reasoning" = Some (JStr "No reasoning provided").
Proof.
  assert (Hwt : well_typed (list_to_map (reverse (@nil (string * json))))).
  { repeat split; intros v Hv; vm_compute in Hv; discriminate. }
  destruct (missing_fields_defaulted exn_class "gpt-4o" "T" [] Hwt)
    as (H1 & H2 & H3 & H4 & _).
  repeat split; assumption.
Defined.

(** The default of [reasoning] is not the string the claim names. *)
Lemma default_reasoning_counterexample :
  analyze_context exn_class "gpt-4o" "T" (Parsed (JObj [])) !! "reasoning"
    <> Some (JStr "no reasoning").
Proof. vm_compute. discriminate. Qed.

End CognitiveEngineProps.


(** ** The orchestrator *)

Module OrchestratorProps.
Import Orchestrator.

(** *** The caption queue *)

(** Whatever the producer and the consumer do, nothing is lost and nothing
    overtakes: what was consumed, followed by what is still queued, is what
    was queued at first followed by what was pushed. *)
Lemma queue_run_fifo ops : forall s,
  consumed (caption_queue s) ops ++ caption_queue (queue_run s ops) =
    caption_queue s ++ pushed ops.
Proof.
  induction ops as [|[item|] ops IH]; intros s; simpl.
  - rewrite app_nil_r. reflexivity.
  - specialize (IH (publish item s)). simpl in IH. rewrite IH.
    unfold Queue.put. rewrite <- app_assoc. reflexivity.
  - unfold take_caption.
    destruct (caption_queue s) as [|item q'] eqn:Hq; simpl.
    + specialize (IH s). rewrite Hq in IH. exact IH.
    + specialize (IH (set_latest_caption (Some (caption item)) (set_queue q' s))).
      simpl in IH. rewrite IH. reflexivity.
Qed.

(** The caption the main loop holds is that of the last item it took. *)
Lemma queue_run_latest ops : forall s,
  latest_caption (queue_run s ops) =
    match last (consumed (caption_queue s) ops) with
    | Some item => Some (caption item)
    | None => latest_caption s
    end.
Proof.
  induction ops as [|[item|] ops IH]; intros s; simpl.
  - reflexivity.
  - rewrite (IH (publish item s)). reflexivity.
  - unfold take_caption.
    destruct (caption_queue s) as [|item q'] eqn:Hq; simpl.
    + rewrite (IH s), Hq. reflexivity.
    + rewrite IH. simpl. rewrite last_cons.
      destruct (last (consumed q' ops)); reflexivity.
Qed.

(** C1, as the code has it.  The caption queue is a FIFO without bound: a
    push never blocks and never discards, it lengthens the queue by one;
    the consumer receives the observations in the order they were pushed,
    none lost; so the observation it receives is the most recent one when
    no older one is waiting. *)
Theorem caption_queue_fifo (now : Z) (deployment : option string)
    (ops : list queue_op) :
  let s := queue_run (init now deployment) ops in
  consumed Queue.empty ops ++ caption_queue s = pushed ops /\
  latest_caption s = caption <$> last (consumed Queue.empty ops) /\
  (forall item,
     caption_queue (publish item s) = caption_queue s ++ [item] /\
     Queue.qsize (caption_queue (publish item s)) = S (Queue.qsize (caption_queue s))) /\
  (forall item,
     caption_queue s = [] ->
     latest_caption (take_caption (publish item s)) = Some (caption item) /\
     caption_queue (take_caption (publish item s)) = []).
Proof.
  intros s. split; [|split; [|split]].
  - apply (queue_run_fifo ops (init now deployment)).
  - unfold s. rewrite queue_run_latest. simpl.
    destruct (last (consumed Queue.empty ops)); reflexivity.
  - intros item. simpl. unfold Queue.put, Queue.qsize.
    split; [reflexivity|]. rewrite length_app. simpl. lia.
  - intros item Hq. unfold take_caption, publish. simpl. rewrite Hq. simpl.
    split; reflexivity.
Qed.

Lemma caption_queue_fifo_witness :
  let s := queue_run (init 0 None) [Push (observation "first"); Pop] in
  latest_caption (take_caption (publish (observation "second") s)) = Some "second".
Proof.
  intros s.
  destruct (caption_queue_fifo 0 None [Push (observation "first"); Pop])
    as (_ & _ & _ & H).
  apply (H (observation "second")). reflexivity.
Defined.

(** Two observations pushed before the main loop runs: both are queued, and
    the loop takes the older one. *)
Lemma caption_queue_counterexample :
  let s := queue_run (init 0 None)
             [Push (observation "older"); Push (observation "newer")] in
  Queue.qsize (caption_queue s) = 2%nat /\
  latest_caption (take_caption s) = Some "older" /\
  caption_queue (take_caption s) = [observation "newer"].
Proof. repeat split. Qed.

(** *** The distress cooldown *)

Lemma _on_distress_cooldown s now said :
  now - last_distress_check s < distress_cooldown s ->
  _on_distress now said s = (s, []).
Proof.
  intros H. unfold _on_distress.
  apply Z.ltb_lt in H. rewrite H. reflexivity.
Qed.

Lemma _on_distress_speaks s now said :
  distress_cooldown s <= now - last_distress_check s ->
  _on_distress now said s =
    (set_last_distress_check now s,
     [ {| text := JStr comfort_message; style := JStr "empathetic" |} ]).
Proof.
  intros H. unfold _on_distress.
  apply Z.ltb_ge in H. rewrite H. reflexivity.
Qed.

(** The responses of a run come at least a cooldown after the last check
    the run started from, and at least a cooldown after one another. *)
Lemma distress_run_spaced events : forall s,
  0 <= distress_cooldown s ->
  StronglySorted (apart (distress_cooldown s)) (snd (distress_run s events)) /\
  Forall (apart (distress_cooldown s) (last_distress_check s))
         (snd (distress_run s events)).
Proof.
  induction events as [|[now said] events IH]; intros s Hgap; simpl.
  - split; constructor.
  - destruct (Z.lt_ge_cases (now - last_distress_check s) (distress_cooldown s))
      as [Hcool|Hdue].
    + rewrite (_on_distress_cooldown s now said Hcool).
      destruct (IH s Hgap) as [Hsorted Hafter].
      destruct (distress_run s events) as [s2 responses]. simpl in *.
      split; assumption.
    + rewrite (_on_distress_speaks s now said Hdue).
      destruct (IH (set_last_distress_check now s) Hgap) as [Hsorted Hafter].
      destruct (distress_run (set_last_distress_check now s) events)
        as [s2 responses]. simpl in *.
      split.
      * constructor; assumption.
      * constructor.
        -- unfold apart. lia.
        -- eapply Forall_impl; [exact Hafter|].
           unfold apart. intros t Ht. lia.
Qed.

(** C10. A distress event reported less than the cooldown after the last
    distress check is answered by nothing and leaves the clock of the
    cooldown as it was; with the cooldown of 30 seconds, any two comfort
    responses of a run are at least 30 seconds apart. *)
Theorem distress_cooldown_respected (s : t) (now : Z) (said : string)
    (events : list (Z * string)) :
  (now - last_distress_check s < distress_cooldown s ->
   _on_distress now said s = (s, []) /\
   last_distress_check (fst (_on_distress now said s)) = last_distress_check s) /\
  (distress_cooldown s = 30 * 1000000 ->
   StronglySorted (apart (30 * 1000000)) (snd (distress_run s events))).
Proof.
  split.
  - intros H. rewrite (_on_distress_cooldown s now said H). split; reflexivity.
  - intros H. rewrite <- H. apply distress_run_spaced. lia.
Qed.

(** The constructor's state, a first event 10 s later, and a run of
    events of which the second and the last are answered. *)
Lemma distress_cooldown_respected_witness :
  let s := init 0 None in
  let events := [(10000000, "help"); (30000000, "help"); (40000000, "stop");
                 (59999999, "help"); (60000000, "help")] in
  _on_distress 10000000 "help" s = (s, []) /\
  snd (distress_run s events) = [30000000; 60000000] /\
  StronglySorted (apart (30 * 1000000)) (snd (distress_run s events)).
Proof.
  intros s events.
  destruct (distress_cooldown_respected s 10000000 "help" events) as [Hcool Hrun].
  split; [|split].
  - apply Hcool. reflexivity.
  - reflexivity.
  - apply Hrun. reflexivity.
Defined.

End OrchestratorProps.


(** ** The fallback path *)

Module FallbackProps.
Import CognitiveEngine DemoMode Orchestrator.
Import CognitiveEngineProps DemoModeProps.

(** The fallback decision of the engine is of no use to the demo
    controller: its content is empty. *)
Lemma usable_fallback timestamp reason :
  DemoController.usable (Some (_fallback_response timestamp reason)) = false.
Proof.
  unfold DemoController.usable.
  destruct (fallback_fields timestamp reason) as (_ & _ & Hcontent & _).
  rewrite Hcontent. simpl. apply andb_false_r.
Qed.

(** Nothing is spoken for the fallback decision. *)
Lemma speak_decision_fallback timestamp reason :
  speak_decision (_fallback_response timestamp reason) = [].
Proof.
  unfold speak_decision, get_truthy.
  destruct (fallback_fields timestamp reason) as (Hspeak & _).
  rewrite Hspeak. reflexivity.
Qed.

(** An iteration of the main loop whose reasoning call fails speaks
    nothing. *)
Lemma main_loop_iteration_failed str_exn timestamp distress r loop_count s :
  failed r ->
  snd (main_loop_iteration str_exn timestamp distress r loop_count s) = [].
Proof.
  intros Hfailed. unfold main_loop_iteration.
  destruct distress; [reflexivity|].
  destruct (latest_caption (take_caption s)) as [scene|]; [|reflexivity].
  destruct (engine (take_caption s)) as [deployment|]; [|reflexivity].
  destruct (negb (String.eqb scene "") && (loop_count mod 30 =? 0));
    [|reflexivity].
  destruct (analyze_context_failed str_exn deployment timestamp r Hfailed)
    as [reason ->].
  apply speak_decision_fallback.
Qed.

(** What the demo controller makes of a decision it cannot use. *)
Lemma get_response_backup now decision (dc : DemoController.t) :
  DemoController.usable decision = false ->
  clip_responses (DemoController.demo_mode dc) = DEMO_CLIP_RESPONSES ->
  fallback_responses (DemoController.demo_mode dc) = FALLBACK_RESPONSES ->
  exists backup content,
    DemoController.get_response now decision dc = Returned backup /\
    backup !! "should_speak" = Some (JBool true) /\
    backup !! "content" = Some (JStr content) /\
    content <> "" /\
    if is_demo_active (DemoController.demo_mode dc)
    then exists data,
           get_response_for_timestamp now None (DemoController.demo_mode dc)
             = Returned data /\
           content = response data
    else FALLBACK_RESPONSES !! "scene_description" = Some content.
Proof.
  intros Hunusable Htable Hfallback.
  unfold DemoController.get_response. rewrite Hunusable.
  destruct (is_demo_active (DemoController.demo_mode dc)).
  - destruct (get_response_for_timestamp_demo now None _ Htable)
      as [(data & Hget & Hcov)|[Hget _]]; rewrite Hget.
    + eexists. exists (response data). split; [reflexivity|].
      split; [reflexivity|]. split; [reflexivity|]. split.
      * destruct Hcov as (k & _ & Hin & _).
        apply (demo_responses_nonempty k data Hin).
      * exists data. split; reflexivity.
    + eexists. eexists. split; [reflexivity|].
      split; [reflexivity|]. split; [reflexivity|]. split.
      * unfold generic_entry. simpl. rewrite Hfallback.
        rewrite lookup_total_alt, generic_response. discriminate.
      * eexists. split; reflexivity.
  - eexists. eexists. split; [reflexivity|].
    split; [reflexivity|]. split; [reflexivity|].
    rewrite lookup_total_alt, scene_description_response. simpl.
    split; [discriminate|reflexivity].
Qed.

(** C2, as the code has it.  When the reasoning collaborator times out,
    raises or answers with something that is no JSON object, the engine
    returns its fallback decision, which asks for silence and has an empty
    content, so nothing is spoken for it.  The demo controller turns such
    a decision into one that asks to speak and has a content that is not
    empty: the entry of the timeline for the elapsed time when the demo
    timeline runs, the scene-description response of the fallback table
    otherwise. *)
Theorem fallback_on_failure
    (str_exn : exn -> string) (deployment timestamp : string) (r : reply)
    (now : Z) (dc : DemoController.t) :
  failed r ->
  clip_responses (DemoController.demo_mode dc) = DEMO_CLIP_RESPONSES ->
  fallback_responses (DemoController.demo_mode dc) = FALLBACK_RESPONSES ->
  let decision := analyze_context str_exn deployment timestamp r in
  decision !! "should_speak" = Some (JBool false) /\
  decision !! "content" = Some (JStr "") /\
  speak_decision decision = [] /\
  exists backup content,
    DemoController.get_response now (Some decision) dc = Returned backup /\
    backup !! "should_speak" = Some (JBool true) /\
    backup !! "content" = Some (JStr content) /\
    content <> "" /\
    if is_demo_active (DemoController.demo_mode dc)
    then exists data,
           get_response_for_timestamp now None (DemoController.demo_mode dc)
             = Returned data /\
           content = response data
    else FALLBACK_RESPONSES !! "scene_description" = Some content.
Proof.
  intros Hfailed Htable Hfallback decision.
  destruct (analyze_context_failed str_exn deployment timestamp r Hfailed)
    as [reason Hdecision].
  unfold decision. rewrite Hdecision.
  destruct (fallback_fields timestamp reason) as (Hspeak & _ & Hcontent & _).
  split; [exact Hspeak|]. split; [exact Hcontent|].
  split; [apply speak_decision_fallback|].
  apply get_response_backup; [apply usable_fallback|assumption..].
Qed.

(** A time-out, seen by a controller whose timeline does not run. *)
Lemma fallback_on_failure_witness :
  let decision := analyze_context exn_class "gpt-4o" "T" (Raised "Request timed out.") in
  decision !! "content" = Some (JStr "") /\
  exists backup content,
    DemoController.get_response 0 (Some decision) (DemoController.init false)
      = Returned backup /\
    backup !! "content" = Some (JStr content) /\
    FALLBACK_RESPONSES !! "scene_description" = Some content.
Proof.
  destruct (fallback_on_failure exn_class "gpt-4o" "T" (Raised "Request timed out.")
              0 (DemoController.init false) I eq_refl eq_refl)
    as (_ & Hcontent & _ & backup & content & Hget & _ & Hbackup & _ & Hscene).
  split; [exact Hcontent|].
  exists backup, content. repeat split; assumption.
Defined.

(** A time-out of the reasoning call: the content of the fallback decision
    is empty, the iteration of the main loop that made the call speaks
    nothing, and the content the demo controller substitutes is the
    scene-description response, not the generic one. *)
Lemma fallback_counterexample :
  let failure := Raised "Request timed out." in
  let decision := analyze_context exn_class "gpt-4o" "T" failure in
  decision !! "content" = Some (JStr "") /\
  snd (main_loop_iteration exn_class "T" false failure 30
         (publish (observation "a scene") (init 0 (Some "gpt-4o")))) = [] /\
  exists backup,
    DemoController.get_response 0 (Some decision) (DemoController.init false)
      = Returned backup /\
    backup !! "content" = Some (JStr (FALLBACK_RESPONSES !!! "scene_description")) /\
    backup !! "content" <> Some (JStr (FALLBACK_RESPONSES !!! "generic")).
Proof.
  intros failure decision.
  split; [apply (fallback_fields "T" "Request timed out.")|].
  split; [apply main_loop_iteration_failed; exact I|].
  unfold DemoController.get_response, decision. simpl analyze_context.
  rewrite usable_fallback. simpl.
  eexists. split; [reflexivity|]. split; [reflexivity|].
  rewrite lookup_insert_ne, lookup_insert_ne, lookup_insert_eq by discriminate.
  rewrite !lookup_total_alt, scene_description_response, generic_response.
  discriminate.
Qed.

End FallbackProps.


(* ===================================================================== *)
(** * Part III: further properties of the code                            *)
(* ===================================================================== *)

(** ** The audio monitor: history, hysteresis, average, pause *)

Module AudioMonitorExtra.
Import AudioMonitor.

(** The last [n] elements of a list. *)
Lemma drop_snoc_window {A : Type} (n : nat) (l : list A) (x : A) :
  let w := drop (length l - n) l ++ [x] in
  drop (length w - n) w = drop (length (l ++ [x]) - n) (l ++ [x]).
Proof.
  simpl. rewrite !length_app, length_drop. simpl.
  destruct (Nat.le_gt_cases (length l) n) as [Hle|Hgt].
  - replace (length l - n)%nat with 0%nat by lia. rewrite Nat.sub_0_r.
    reflexivity.
  - rewrite <- (drop_app_le l [x]) by lia.
    rewrite drop_drop. f_equal. lia.
Qed.

Lemma observe_history s x :
  db_history (observe s x) = deque_append 50 (snd x) (db_history s).
Proof.
  unfold observe, _process_db_level; simpl.
  destruct (Qgtb (snd x) (threshold_db s)); reflexivity.
Qed.

Lemma observe_all_history thr qd samples :
  db_history (observe_all (init thr qd) samples) =
    drop (length samples - 50) (map snd samples).
Proof.
  induction samples as [|x xs IH] using rev_ind; [reflexivity|].
  unfold observe_all. rewrite fold_left_app. simpl.
  rewrite observe_history. fold (observe_all (init thr qd) xs). rewrite IH.
  unfold deque_append. rewrite map_app. simpl.
  rewrite <- (length_map snd xs), <- (length_map snd (xs ++ [x])), map_app.
  apply (drop_snoc_window 50 (map snd xs) (snd x)).
Qed.

(** X1. The history of levels never grows past 50 entries: after any
    sequence of samples it holds the levels of the last 50 of them (of all
    of them while there are fewer), oldest first. *)
Theorem history_keeps_last_50 (thr : Q) (qd : Z) (samples : list (Z * Q)) :
  let s := observe_all (init thr qd) samples in
  db_history s = drop (length samples - 50) (map snd samples) /\
  length (db_history s) = Nat.min (length samples) 50 /\
  (length (db_history s) <= 50)%nat.
Proof.
  simpl. rewrite observe_all_history, length_drop, length_map.
  repeat split; lia.
Qed.

Lemma elapsed_ms_mono (loud now later : Z) :
  now <= later -> (elapsed_ms loud now <= elapsed_ms loud later)%Q.
Proof.
  intros H. unfold elapsed_ms.
  apply Qmult_le_compat_r; [|discriminate].
  unfold total_seconds, Qle. cbn [Qnum Qden].
  apply Z.mul_le_mono_nonneg_r; [|lia].
  apply Pos2Z.is_nonneg.
Qed.

Lemma observe_all_keeps_calm xs : forall s,
  (current_db s <= threshold_db s)%Q ->
  Forall (calm (threshold_db s)) xs ->
  (current_db (observe_all s xs) <= threshold_db s)%Q /\
  last_loud_time (observe_all s xs) = last_loud_time s /\
  threshold_db (observe_all s xs) = threshold_db s /\
  quiet_duration_ms (observe_all s xs) = quiet_duration_ms s.
Proof.
  induction xs as [|x xs IH]; intros s Hcur Hall; simpl.
  - repeat split; assumption.
  - inversion Hall as [|? ? Hx Hxs]; subst.
    assert (Hthr : threshold_db (observe s x) = threshold_db s).
    { unfold observe, _process_db_level; simpl.
      destruct (Qgtb (snd x) (threshold_db s)); reflexivity. }
    assert (Hqd : quiet_duration_ms (observe s x) = quiet_duration_ms s).
    { unfold observe, _process_db_level; simpl.
      destruct (Qgtb (snd x) (threshold_db s)); reflexivity. }
    assert (Hstep : current_db (observe s x) = snd x /\
                    last_loud_time (observe s x) = last_loud_time s).
    { unfold observe, _process_db_level; simpl.
      replace (Qgtb (snd x) (threshold_db s)) with false; [split; reflexivity|].
      symmetry. apply not_true_iff_false. unfold Qgtb.
      rewrite negb_true_iff, <- not_true_iff_false, Qle_bool_iff.
      intros Hn. apply Hn, Hx. }
    destruct Hstep as [Hc Hl].
    destruct (IH (observe s x)) as (H1 & H2 & H3 & H4).
    + rewrite Hc, Hthr. exact Hx.
    + rewrite Hthr. exact Hxs.
    + rewrite H2, H3, H4, Hl, Hthr, Hqd. rewrite Hthr in H1.
      repeat split; assumption.
Qed.

(** X2. Hysteresis: once speech is permitted it stays permitted for as
    long as no sample goes above the threshold, at every later reading of
    the clock. *)
Theorem is_quiet_stays_true (s : t) (now later : Z) (samples : list (Z * Q)) :
  is_quiet now s = true ->
  Forall (calm (threshold_db s)) samples ->
  now <= later ->
  is_quiet later (observe_all s samples) = true.
Proof.
  intros Hquiet Hcalm Hlater.
  unfold is_quiet in Hquiet.
  destruct (Qgtb (current_db s) (threshold_db s)) eqn:Hcur; [discriminate|].
  assert (Hcur' : (current_db s <= threshold_db s)%Q).
  { unfold Qgtb in Hcur. rewrite negb_false_iff in Hcur.
    apply Qle_bool_iff, Hcur. }
  destruct (observe_all_keeps_calm samples s Hcur' Hcalm) as (H1 & H2 & H3 & H4).
  unfold is_quiet. rewrite H2, H3, H4.
  replace (Qgtb (current_db (observe_all s samples)) (threshold_db s)) with false.
  - destruct (last_loud_time s) as [loud|]; [|reflexivity].
    unfold Qgeb in *. apply Qle_bool_iff. apply Qle_bool_iff in Hquiet.
    eapply Qle_trans; [exact Hquiet|]. apply elapsed_ms_mono, Hlater.
  - symmetry. unfold Qgtb. rewrite negb_false_iff. apply Qle_bool_iff, H1.
Qed.

Lemma is_quiet_stays_true_witness :
  let s := observe_all (init 70 500) [(0, 85%Q); (100000, 40%Q)] in
  is_quiet 900000 (observe_all s [(700000, 55%Q); (800000, 70%Q)]) = true.
Proof.
  intros s.
  apply (is_quiet_stays_true s 600000 900000).
  - reflexivity.
  - repeat constructor; vm_compute; discriminate.
  - lia.
Defined.




End AudioMonitorExtra.

Module CognitiveProcessingPauseProps.
Import CognitiveProcessingPause.

Lemma run_alternates events : forall s,
  pause_callback s = true -> unpause_callback s = true ->
  alternates (if is_paused s then UnpauseVideo else PauseVideo)
             (snd (run s events)) /\
  is_paused (fst (run s events)) =
    xorb (is_paused s) (Nat.odd (length (snd (run s events)))).
Proof.
  induction events as [|e events IH]; intros s Hp Hu.
  - simpl. split; [exact I|]. destruct (is_paused s); reflexivity.
  - simpl. destruct e; unfold thinking_start, thinking_end; rewrite ?Hp, ?Hu;
      destruct (is_paused s) eqn:Hs; simpl.
    + destruct (IH s Hp Hu) as [Ha Hb]. rewrite Hs in Ha, Hb.
      destruct (run s events). simpl in *. split; assumption.
    + destruct (IH (set_paused true s) Hp Hu) as [Ha Hb].
      destruct (run (set_paused true s) events) as [s2 more]. simpl in *.
      split; [split; [reflexivity|exact Ha]|].
      rewrite Hb, Nat.odd_succ, <- Nat.negb_odd.
      destruct (Nat.odd (length more)); reflexivity.
    + destruct (IH (set_paused false s) Hp Hu) as [Ha Hb].
      destruct (run (set_paused false s) events) as [s2 more]. simpl in *.
      split; [split; [reflexivity|exact Ha]|].
      rewrite Hb, Nat.odd_succ, <- Nat.negb_odd.
      destruct (Nat.odd (length more)); reflexivity.
    + destruct (IH s Hp Hu) as [Ha Hb]. rewrite Hs in Ha, Hb.
      destruct (run s events). simpl in *. split; assumption.
Qed.

Lemma run_pause_only events : forall s,
  unpause_callback s = false ->
  (length (snd (run s events)) <= if is_paused s then 0 else 1)%nat.
Proof.
  induction events as [|e events IH]; intros s Hu.
  - simpl. destruct (is_paused s); lia.
  - simpl. destruct e; unfold thinking_start, thinking_end; rewrite ?Hu.
    + destruct (pause_callback s && negb (is_paused s)) eqn:E.
      * specialize (IH (set_paused true s) Hu).
        destruct (run (set_paused true s) events) as [s2 more]. simpl in *.
        apply andb_true_iff in E as [_ E]. apply negb_true_iff in E.
        rewrite E. lia.
      * specialize (IH s Hu). destruct (run s events). simpl in *. exact IH.
    + simpl. specialize (IH s Hu). destruct (run s events). simpl in *. exact IH.
Qed.

(** X4. Whatever the order in which the start and the end of thinking are
    reported, the video is paused and resumed in turn, starting with a
    pause, and [is_paused] tells which came last.  Without a callback to
    resume, the video is paused once at most and stays paused. *)
Theorem pause_and_resume_take_turns (events : list event) (pause : bool) :
  alternates PauseVideo (snd (run (init true true) events)) /\
  is_paused (fst (run (init true true) events)) =
    Nat.odd (length (snd (run (init true true) events))) /\
  (length (snd (run (init pause false) events)) <= 1)%nat.
Proof.
  destruct (run_alternates events (init true true) eq_refl eq_refl) as [Ha Hb].
  split; [exact Ha|]. split; [exact Hb|].
  apply (run_pause_only events (init pause false) eq_refl).
Qed.

End CognitiveProcessingPauseProps.


(** ** The vision pipeline *)

Module VisionPipelineProps.
Import VisionCapture VisionPipeline.

(** X5. The image analysis is called three times at most; every call but
    the last one failed with a connection error or a time-out; the result
    is the answer of the last call when it answered, and a failure
    otherwise: an error of another kind is not retried, and the third
    transient error is the last. *)
Theorem analysis_retries_transient_only {A : Type} (attempts : nat -> attempt A) :
  let result := fst (analyze_frame attempts) in
  let calls := snd (analyze_frame attempts) in
  (1 <= calls <= 3)%nat /\
  (forall k, (S k < calls)%nat -> attempts k = Transient) /\
  (forall answer,
     result = Some answer <-> attempts (calls - 1)%nat = Answered answer) /\
  (result = None -> (calls < 3)%nat -> attempts (calls - 1)%nat = Fatal).
Proof.
  unfold analyze_frame. simpl.
  destruct (attempts 0%nat) as [a0| |] eqn:E0; simpl.
  - split; [lia|]. split; [intros k Hk; lia|]. rewrite E0.
    split; [intros answer; split; congruence|discriminate].
  - destruct (attempts 1%nat) as [a1| |] eqn:E1; simpl.
    + split; [lia|].
      split; [intros k Hk; assert (k = 0%nat) as -> by lia; exact E0|].
      rewrite E1. split; [intros answer; split; congruence|discriminate].
    + destruct (attempts 2%nat) as [a2| |] eqn:E2; simpl.
      all: split; [lia|].
      all: split;
        [intros k Hk;
         assert (k = 0%nat \/ k = 1%nat) as [-> | ->] by lia; assumption|].
      all: rewrite E2.
      all: split; [intros answer; split; congruence|].
      all: first [discriminate | intros _ Hlt; lia].
    + split; [lia|].
      split; [intros k Hk; assert (k = 0%nat) as -> by lia; exact E0|].
      rewrite E1. split; [intros answer; split; congruence|reflexivity].
  - split; [lia|]. split; [intros k Hk; lia|]. rewrite E0.
    split; [intros answer; split; congruence|reflexivity].
Qed.

Lemma analysis_retries_transient_only_witness :
  let attempts := fun k : nat => if (k =? 0)%nat then @Transient Z else Fatal in
  fst (analyze_frame attempts) = None /\
  snd (analyze_frame attempts) = 2%nat /\
  attempts 1%nat = Fatal.
Proof.
  intros attempts.
  destruct (analysis_retries_transient_only attempts) as (_ & _ & _ & H).
  split; [reflexivity|]. split; [reflexivity|].
  apply H; [reflexivity|simpl; lia].
Defined.

Section Pipeline.
Variables frame gray A R : Type.
Variable cvtColor : frame -> gray.
Variable ssim : gray -> gray -> option Q.
Variable build_response : A -> Z -> Z -> R.

Abbreviation pipeline := (VisionPipeline.t gray R).
Abbreviation process_frame :=
  (VisionPipeline.process_frame cvtColor ssim build_response).
Abbreviation is_keyframe := (VisionCapture.is_keyframe cvtColor ssim).
Abbreviation evaluate_all := (VisionCapture.evaluate_all cvtColor ssim).

(** A frame equal to the remembered one, before the interval has run out,
    is rejected whenever the threshold is 1 at most. *)
Lemma same_frame_rejected (now : Q) (f : frame) (d : VisionCapture.t gray) :
  (forall g score, ssim g g = Some score -> (score == 1)%Q) ->
  (ssim_threshold d <= 1)%Q ->
  previous_frame_gray d = Some (cvtColor f) ->
  (now - last_analysis_time d < max_interval_seconds d)%Q ->
  is_keyframe now f d = (false, d).
Proof.
  intros Hrefl Hthr Hprev Hsoon.
  rewrite (VisionCaptureProps.is_keyframe_content _ _ cvtColor ssim now f d
             (cvtColor f) Hprev Hsoon).
  destruct (ssim (cvtColor f) (cvtColor f)) as [sc|] eqn:E; [|reflexivity].
  replace (Qltb sc (ssim_threshold d)) with false; [reflexivity|].
  symmetry. apply Qltb_false. rewrite (Hrefl _ _ E). exact Hthr.
Qed.

(** X6. [process_frame] yields a response only for a keyframe whose
    analysis answered.  When the analysis of a keyframe fails, the frame
    has been remembered all the same: the same frame offered again before
    the interval has run out is not analysed, whatever the service would
    answer by then. *)
Theorem failed_analysis_is_not_retried
    (now later : Q) (f : frame) (attempts again : nat -> attempt A) (p : pipeline) :
  (forall response,
     fst (process_frame now f attempts p) = Some response ->
     fst (is_keyframe now f (detector p)) = true /\
     exists answer, fst (analyze_frame attempts) = Some answer) /\
  ((forall g score, ssim g g = Some score -> (score == 1)%Q) ->
   (ssim_threshold (detector p) <= 1)%Q ->
   fst (is_keyframe now f (detector p)) = true ->
   fst (analyze_frame attempts) = None ->
   (later - now < max_interval_seconds (detector p))%Q ->
   let p1 := snd (process_frame now f attempts p) in
   fst (process_frame now f attempts p) = None /\
   process_frame later f again p1 = (None, p1)).
Proof.
  split.
  - intros response. unfold VisionPipeline.process_frame.
    destruct (is_keyframe now f (detector p)) as [[|] d]; simpl.
    + destruct (fst (analyze_frame attempts)) as [answer|]; simpl;
        [|discriminate].
      intros _. split; [reflexivity|]. exists answer. reflexivity.
    + discriminate.
  - intros Hrefl Hthr Hkey Hfail Hsoon.
    unfold VisionPipeline.process_frame.
    destruct (VisionCaptureProps.is_keyframe_cases _ _ cvtColor ssim now f
                (detector p)) as [E|E]; rewrite E in Hkey; [|discriminate].
    rewrite E, Hfail. simpl. split; [reflexivity|].
    rewrite same_frame_rejected; try assumption; reflexivity.
Qed.

Lemma remember_remember (g g' : gray) (now later : Q) (d : VisionCapture.t gray) :
  remember g' later (remember g now d) = remember g' later d.
Proof. reflexivity. Qed.

(** X7. After any run of frames the detector is the one it started from
    with the last accepted frame and its time remembered, and it is
    unchanged when no frame was accepted; every frame gets its verdict. *)
Theorem detector_remembers_last_accepted
    (frames : list (Q * frame)) (d : VisionCapture.t gray) :
  let verdicts := fst (evaluate_all d frames) in
  length verdicts = length frames /\
  snd (evaluate_all d frames) =
    match last_accepted verdicts frames with
    | Some (now, f) => remember (cvtColor f) now d
    | None => d
    end.
Proof.
  revert d. induction frames as [|[now f] frames IH]; intros d.
  - split; reflexivity.
  - simpl.
    destruct (IH (remember (cvtColor f) now d)) as [Hlen1 Hst1].
    destruct (IH d) as [Hlen0 Hst0].
    destruct (VisionCaptureProps.is_keyframe_cases _ _ cvtColor ssim now f d)
      as [E|E]; rewrite E.
    + destruct (evaluate_all (remember (cvtColor f) now d) frames)
        as [verdicts d2]. simpl in *.
      split; [lia|]. rewrite Hst1.
      destruct (last_accepted verdicts frames) as [[later f']|]; reflexivity.
    + destruct (evaluate_all d frames) as [verdicts d2]. simpl in *.
      split; [lia|]. rewrite Hst0.
      destruct (last_accepted verdicts frames) as [[later f']|]; reflexivity.
Qed.

(** X8. A scene that does not change is analysed once per interval and no
    more: when every frame equals the remembered one (and the threshold is
    1 at most), each accepted frame comes at least [max_interval_seconds]
    after the one accepted before it. *)
Theorem static_scene_one_keyframe_per_interval
    (f : frame) (frames : list (Q * frame)) (d : VisionCapture.t gray) :
  (forall g score, ssim g g = Some score -> (score == 1)%Q) ->
  (ssim_threshold d <= 1)%Q ->
  previous_frame_gray d = Some (cvtColor f) ->
  Forall (fun x => snd x = f) frames ->
  spaced (max_interval_seconds d) (last_analysis_time d)
         (accepted_times (fst (evaluate_all d frames)) frames).
Proof.
  intros Hrefl. revert d.
  induction frames as [|[now f'] frames IH]; intros d Hthr Hprev Hall.
  - exact I.
  - inversion Hall as [|? ? Hf Hrest]. simpl in Hf. subst.
    simpl.
    destruct (Qlt_le_dec (now - last_analysis_time d) (max_interval_seconds d))
      as [Hsoon|Hdue].
    + rewrite (same_frame_rejected now f d Hrefl Hthr Hprev Hsoon).
      specialize (IH d Hthr Hprev Hrest).
      destruct (evaluate_all d frames) as [verdicts d2]. exact IH.
    + assert (E : is_keyframe now f d = (true, remember (cvtColor f) now d)).
      { unfold VisionCapture.is_keyframe. rewrite Hprev.
        apply Qgeb_true in Hdue. rewrite Hdue. reflexivity. }
      rewrite E.
      specialize (IH (remember (cvtColor f) now d) Hthr eq_refl Hrest).
      destruct (evaluate_all (remember (cvtColor f) now d) frames)
        as [verdicts d2]. simpl in *.
      split; [lra|exact IH].
Qed.

End Pipeline.

Lemma failed_analysis_is_not_retried_witness :
  let p := {| detector := seen black 0; latest_caption := @None Z |} in
  let down := fun _ : nat => @Transient Z in
  let up := fun _ : nat => Answered 7 in
  let p1 := snd (VisionPipeline.process_frame row_gray row_ssim
                   (fun a _ _ => a) 1 white down p) in
  VisionPipeline.process_frame row_gray row_ssim (fun a _ _ => a) 2 white up p1
    = (None, p1).
Proof.
  intros p down up p1.
  apply (failed_analysis_is_not_retried _ _ Z Z row_gray row_ssim
           (fun a _ _ => a) 1 2 white down up p).
  - intros g score. unfold row_ssim.
    rewrite Nat.eqb_refl. simpl.
    rewrite bool_decide_eq_true_2 by reflexivity.
    intros [= <-]. reflexivity.
  - vm_compute. discriminate.
  - reflexivity.
  - reflexivity.
  - reflexivity.
Defined.

Lemma static_scene_one_keyframe_per_interval_witness :
  accepted_times
    (fst (VisionCapture.evaluate_all row_gray row_ssim (seen black 0)
            [(5%Q, black); (15%Q, black); (20%Q, black); (31%Q, black)]))
    [(5%Q, black); (15%Q, black); (20%Q, black); (31%Q, black)]
    = [15%Q; 31%Q] /\
  spaced 15 0 [15%Q; 31%Q].
Proof.
  split; [reflexivity|].
  apply (static_scene_one_keyframe_per_interval _ _ row_gray row_ssim black
           [(5%Q, black); (15%Q, black); (20%Q, black); (31%Q, black)]
           (seen black 0)).
  - intros g score. unfold row_ssim.
    rewrite Nat.eqb_refl. simpl.
    rewrite bool_decide_eq_true_2 by reflexivity.
    intros [= <-]. reflexivity.
  - vm_compute. discriminate.
  - reflexivity.
  - repeat constructor.
Defined.

End VisionPipelineProps.

(** ** The camera *)

Module CameraProps.
Import Camera.

Lemma frames_read_none {frame : Type} (w : world frame) (k : nat) :
  frames_read w k k = [].
Proof. unfold frames_read. rewrite Nat.sub_diag. reflexivity. Qed.

Lemma frames_read_split {frame : Type} (w : world frame) (a b c : nat) :
  (a <= b)%nat -> (b <= c)%nat ->
  frames_read w a c = frames_read w a b ++ frames_read w b c.
Proof.
  intros Hab Hbc. unfold frames_read.
  replace (c - a)%nat with ((b - a) + (c - b))%nat by lia.
  rewrite seq_app, omap_app. repeat f_equal. lia.
Qed.

Lemma frames_read_one {frame : Type} (w : world frame) (k : nat) :
  frames_read w k (S k) = match reads w k with Some f => [f] | None => [] end.
Proof.
  unfold frames_read. replace (S k - k)%nat with 1%nat by lia. simpl.
  destruct (reads w k); reflexivity.
Qed.

(** Opening the camera reads nothing and leaves the counters of the frames
    alone. *)
Lemma start_camera_loop_frame remaining :
  forall {frame : Type} (w w' : world frame) (s s' : t) (ok : bool),
  start_camera_loop remaining w s = (ok, s', w') ->
  reads w' = reads w /\ read w' = read w /\
  frame_count s' = frame_count s /\
  (ok = true -> cap s' = Opened /\ consecutive_failures s' = 0).
Proof.
  induction remaining as [|remaining IH]; intros frame w w' s s' ok; simpl.
  - intros [= <- <- <-]. repeat split; discriminate.
  - destruct (opens w (opened w)) as [| |c]; simpl.
    + intros [= <- <- <-]. repeat split.
    + intros H. apply IH in H. exact H.
    + intros H. apply IH in H. exact H.
Qed.

Lemma get_frame_read_frame {frame : Type} (w : world frame) (s : t) :
  get_frame w s =
    let '(available, s1, w1) :=
      match cap s with
      | Opened => (true, s, w)
      | _ => start_camera w s
      end in
    if negb available then (None, s1, w1) else read_frame w1 s1.
Proof. reflexivity. Qed.

Lemma read_frame_step {frame : Type} (w w' : world frame) (s s' : t) got :
  cap s = Opened ->
  read_frame w s = (got, s', w') ->
  reads w' = reads w /\ (read w <= read w')%nat /\
  frames_read w (read w) (read w') =
    match got with Some f => [f] | None => [] end /\
  frame_count s' =
    frame_count s + match got with Some _ => 1 | None => 0 end /\
  (is_Some got -> cap s' = Opened /\ consecutive_failures s' = 0).
Proof.
  intros Hopen. unfold read_frame, next_read. simpl.
  destruct (reads w (read w)) as [f|] eqn:E1.
  - intros [= <- <- <-]. simpl.
    split; [reflexivity|]. split; [lia|].
    split; [rewrite frames_read_one, E1; reflexivity|].
    split; [lia|]. intros _. split; [exact Hopen|reflexivity].
  - destruct (max_consecutive_failures s <=? consecutive_failures s + 1).
    + unfold start_camera.
      destruct (start_camera_loop _ _ _) as [[ok s3] w3] eqn:Hs.
      apply start_camera_loop_frame in Hs. simpl in Hs.
      destruct Hs as (Hr3 & Hk3 & Hc3 & Hok).
      destruct ok; simpl.
      * rewrite Hr3, Hk3.
        destruct (reads w (S (read w))) as [f|] eqn:E2.
        -- intros [= <- <- <-]. simpl.
           split; [reflexivity|]. split; [lia|].
           split.
           { rewrite (frames_read_split w _ (S (read w))) by lia.
             rewrite !frames_read_one, E1, E2. reflexivity. }
           split; [lia|]. intros _. destruct (Hok eq_refl) as [Ho _].
           split; [exact Ho|reflexivity].
        -- intros [= <- <- <-]. simpl.
           split; [reflexivity|]. split; [lia|].
           split.
           { rewrite (frames_read_split w _ (S (read w))) by lia.
             rewrite !frames_read_one, E1, E2. reflexivity. }
           split; [lia|]. intros [? [=]].
      * intros [= <- <- <-]. rewrite Hr3, Hk3.
        split; [reflexivity|]. split; [lia|].
        split; [rewrite frames_read_one, E1; reflexivity|].
        split; [lia|]. intros [? [=]].
    + intros [= <- <- <-]. simpl.
      split; [reflexivity|]. split; [lia|].
      split; [rewrite frames_read_one, E1; reflexivity|].
      split; [lia|]. intros [? [=]].
Qed.

(** One call of [get_frame]. *)
Lemma get_frame_step {frame : Type} (w w' : world frame) (s s' : t) got :
  get_frame w s = (got, s', w') ->
  reads w' = reads w /\ (read w <= read w')%nat /\
  frames_read w (read w) (read w') =
    match got with Some f => [f] | None => [] end /\
  frame_count s' =
    frame_count s + match got with Some _ => 1 | None => 0 end /\
  (is_Some got -> cap s' = Opened /\ consecutive_failures s' = 0).
Proof.
  rewrite get_frame_read_frame.
  assert (Hclosed : forall ok s1 w1,
    start_camera w s = (ok, s1, w1) ->
    (if negb ok then (None, s1, w1) else read_frame w1 s1) = (got, s', w') ->
    reads w' = reads w /\ (read w <= read w')%nat /\
    frames_read w (read w) (read w') =
      match got with Some f => [f] | None => [] end /\
    frame_count s' =
      frame_count s + match got with Some _ => 1 | None => 0 end /\
    (is_Some got -> cap s' = Opened /\ consecutive_failures s' = 0)).
  { intros ok s1 w1 Hs. apply start_camera_loop_frame in Hs.
    destruct Hs as (Hr & Hk & Hc & Hok).
    destruct ok; simpl.
    - intros H. apply read_frame_step in H; [|apply (Hok eq_refl)].
      destruct H as (H1 & H2 & H3 & H4 & H5).
      unfold frames_read in *. rewrite Hr, Hk, Hc in *.
      repeat split; try assumption; apply H5; assumption.
    - intros [= <- <- <-]. rewrite Hr, Hk, Hc, frames_read_none.
      split; [reflexivity|]. split; [lia|]. split; [reflexivity|].
      split; [lia|]. intros [? [=]]. }
  destruct (cap s) eqn:Hcap.
  1,2: destruct (start_camera w s) as [[ok s1] w1] eqn:Hs;
       apply (Hclosed ok s1 w1 eq_refl).
  simpl. intros H. apply read_frame_step in H; assumption.
Qed.

(** X9. Over any number of calls of [get_frame], the frames handed out are
    exactly the successful reads of the camera, in order, none dropped and
    none handed out twice, and [frame_count] has grown by their number. *)
Theorem capture_hands_out_every_frame {frame : Type}
    (n : nat) (w : world frame) (s : t) :
  let '(frames, s', w') := capture n w s in
  (read w <= read w')%nat /\
  frames = frames_read w (read w) (read w') /\
  frame_count s' = frame_count s + Z.of_nat (length frames) /\
  (length frames <= n)%nat.
Proof.
  revert w s. induction n as [|n IH]; intros w s; simpl.
  - rewrite frames_read_none. repeat split; simpl; lia.
  - destruct (get_frame w s) as [[got s1] w1] eqn:Hstep.
    apply get_frame_step in Hstep.
    destruct Hstep as (Hr & Hk & Hf & Hc & _).
    specialize (IH w1 s1).
    destruct (capture n w1 s1) as [[frames s2] w2].
    destruct IH as (Hk2 & Hframes & Hcount & Hlen).
    split; [lia|]. split.
    + rewrite (frames_read_split w _ (read w1)) by lia. rewrite Hf.
      unfold frames_read in *. rewrite Hr in Hframes.
      destruct got; simpl; rewrite Hframes; reflexivity.
    + destruct got; simpl; split; try lia.
      all: rewrite Hcount, Hc; simpl length; lia.
Qed.

End CameraProps.


(** ** Text and the distress checks *)

Module TextProps.
Import Text.

Lemma lower_app (a b : string) :
  lower (String.append a b) = String.append (lower a) (lower b).
Proof. induction a as [|c a IH]; simpl; [reflexivity|]. rewrite IH. reflexivity. Qed.

Lemma startswith_spec (k s : string) :
  startswith k s = true <-> exists rest, s = String.append k rest.
Proof.
  revert s. induction k as [|a k IH]; intros s; simpl.
  - split; [intros _; exists s; reflexivity|reflexivity].
  - destruct s as [|b s].
    + split; [discriminate|intros [rest H]; discriminate].
    + rewrite andb_true_iff, Ascii.eqb_eq, IH. split.
      * intros [-> [rest ->]]. exists rest. reflexivity.
      * intros [rest [= -> ->]]. split; [reflexivity|]. exists rest. reflexivity.
Qed.

Lemma is_in_spec (k s : string) :
  is_in k s = true <->
  exists before after, s = String.append before (String.append k after).
Proof.
  induction s as [|c s IH]; simpl.
  - rewrite orb_false_r, startswith_spec. split.
    + intros [rest H]. exists "", rest. exact H.
    + intros (before & after & H). destruct before; simpl in H.
      * exists after. exact H.
      * discriminate.
  - rewrite orb_true_iff, startswith_spec, IH. split.
    + intros [[rest H]|(before & after & ->)].
      * exists "", rest. exact H.
      * exists (String c before), after. reflexivity.
    + intros (before & after & H). destruct before as [|b before]; simpl in H.
      * left. exists after. exact H.
      * right. injection H as -> ->. exists before, after. reflexivity.
Qed.

Lemma append_assoc (a b c : string) :
  String.append (String.append a b) c = String.append a (String.append b c).
Proof.
  induction a as [|x a IH]; [reflexivity|].
  change (String x (String.append (String.append a b) c) =
          String x (String.append a (String.append b c))).
  f_equal. exact IH.
Qed.

Lemma is_in_context (k s before after : string) :
  is_in k s = true ->
  is_in k (String.append before (String.append s after)) = true.
Proof.
  rewrite !is_in_spec. intros (x & y & ->).
  exists (String.append before x), (String.append y after).
  rewrite !append_assoc. reflexivity.
Qed.

Lemma any_in_spec (keywords : list string) (text : string) :
  any_in keywords text = true <->
  exists k before after,
    In k keywords /\ text = String.append before (String.append k after).
Proof.
  unfold any_in. rewrite existsb_exists. split.
  - intros (k & Hin & H). apply is_in_spec in H as (before & after & H).
    exists k, before, after. split; assumption.
  - intros (k & before & after & Hin & H). exists k. split; [exact Hin|].
    apply is_in_spec. exists before, after. exact H.
Qed.

Lemma any_in_incl (small large : list string) (text : string) :
  incl small large -> any_in small text = true -> any_in large text = true.
Proof.
  unfold any_in. rewrite !existsb_exists.
  intros Hincl (k & Hin & H). exists k. split; [apply Hincl, Hin|exact H].
Qed.

End TextProps.

Module DistressProps.
Import Text Distress TextProps.

(** X10. [detect_distress] holds exactly of the texts whose lower-case form
    contains one of the thirteen keywords as a substring; so it is blind to
    case, and a text that is flagged stays flagged whatever is written
    before and after it. *)
Theorem distress_is_a_substring_check (user_text : string) :
  (detect_distress user_text = true <->
   exists k before after,
     In k engine_keywords /\
     lower user_text = String.append before (String.append k after)) /\
  (forall before after,
     detect_distress user_text = true ->
     detect_distress (String.append before (String.append user_text after)) = true).
Proof.
  split.
  - apply any_in_spec.
  - intros before after. unfold detect_distress.
    rewrite !any_in_spec, !lower_app.
    intros (k & x & y & Hin & ->).
    exists k, (String.append (lower before) x), (String.append y (lower after)).
    split; [exact Hin|]. rewrite !append_assoc. reflexivity.
Qed.

Lemma distress_is_a_substring_check_witness :
  detect_distress "That was unHELPful, really" = true.
Proof.
  destruct (distress_is_a_substring_check "HELP") as [_ H].
  apply (H "That was un" "ful, really"). reflexivity.
Defined.

(** X11. The three keyword lists are nested: what the mock engine flags the
    listener's keywords flag, and what the listener's keywords flag the
    engine flags. *)
Theorem distress_checks_are_nested (user_text : string) :
  (mock_detect_distress user_text = true ->
   any_in voice_keywords (lower user_text) = true) /\
  (any_in voice_keywords (lower user_text) = true ->
   detect_distress user_text = true).
Proof.
  split; apply any_in_incl; intros k Hk; simpl in *; tauto.
Qed.

Lemma distress_checks_are_nested_witness :
  any_in voice_keywords (lower "I'm Scared") = true /\
  detect_distress "I'm Scared" = true.
Proof.
  destruct (distress_checks_are_nested "I'm Scared") as [H1 H2].
  split; [apply H1; reflexivity|apply H2, H1; reflexivity].
Defined.

End DistressProps.

(** ** The reasoning engine: shape of the decision *)

Module CognitiveEngineExtra.
Import CognitiveEngine CognitiveEngineProps Orchestrator.

Lemma fallback_metadata timestamp reason :
  is_Some (_fallback_response timestamp reason !! "metadata").
Proof.
  unfold _fallback_response.
  rewrite !lookup_insert_ne by discriminate. rewrite lookup_insert_eq. eauto.
Qed.

(** The decision is the fallback one or the validated reply. *)
Lemma analyze_context_cases str_exn deployment timestamp r :
  (exists reason,
     analyze_context str_exn deployment timestamp r =
       _fallback_response timestamp reason) \/
  (exists fields,
     r = Parsed (JObj fields) /\
     let result :=
       <["metadata" := JObj [("azure_service", JStr azure_service);
                             ("timestamp", JStr timestamp);
                             ("model", JStr deployment)]]>
         (validate (list_to_map (reverse fields))) in
     analyze_context str_exn deployment timestamp r = result /\
     sliceable (if truthy (result !!! "should_speak")
                then result !!! "content" else result !!! "reasoning") = true).
Proof.
  destruct r as [message| |v]; simpl; [left; eauto..|].
  destruct v; simpl; try (left; eauto; fail).
  match goal with |- context [sliceable ?x] => destruct (sliceable x) eqn:E end.
  - right. eexists. split; [reflexivity|]. split; [reflexivity|exact E].
  - left. eauto.
Qed.

(** X12. Whatever the reasoning call comes to, the decision returned has
    the five keys the callers read: should_speak, emotion, content,
    reasoning and metadata. *)
Theorem decision_has_all_keys
    (str_exn : exn -> string) (deployment timestamp : string) (r : reply) :
  let decision := analyze_context str_exn deployment timestamp r in
  is_Some (decision !! "should_speak") /\
  is_Some (decision !! "emotion") /\
  is_Some (decision !! "content") /\
  is_Some (decision !! "reasoning") /\
  is_Some (decision !! "metadata").
Proof.
  simpl.
  destruct (analyze_context_cases str_exn deployment timestamp r)
    as [[reason ->]|(fields & _ & -> & _)].
  - destruct (fallback_fields timestamp reason) as (H1 & H2 & H3 & H4).
    rewrite H1, H2, H3, H4. repeat split; eauto using fallback_metadata.
  - rewrite !lookup_insert_ne by discriminate. rewrite lookup_insert_eq.
    rewrite lookup_validate_should_speak, lookup_validate_emotion,
      lookup_validate_content, lookup_validate_reasoning.
    repeat split; eauto.
Qed.

(** X13. What is spoken for a decision of the engine is one utterance at
    most, and its text is a string that is not empty or a list that is not
    empty: a reply that asks to speak with a content of another kind (null,
    a number, an object) is turned into the silent fallback. *)
Theorem spoken_text_is_text
    (str_exn : exn -> string) (deployment timestamp : string) (r : reply) :
  let spoken :=
    speak_decision (analyze_context str_exn deployment timestamp r) in
  spoken = [] \/
  exists content emotion,
    spoken = [ {| text := content; style := emotion |} ] /\
    ((exists s, content = JStr s /\ s <> "") \/
     (exists items, content = JArr items /\ items <> [])).
Proof.
  simpl.
  destruct (analyze_context_cases str_exn deployment timestamp r)
    as [[reason ->]|(fields & _ & -> & Hslice)].
  - left. apply FallbackProps.speak_decision_fallback.
  - cbv zeta in Hslice.
    set (result := <["metadata" := _]> _) in *.
    unfold speak_decision, get_truthy.
    destruct (result !! "should_speak") as [v|] eqn:Hv; [|left; reflexivity].
    destruct (truthy v) eqn:Htv; [|left; reflexivity].
    destruct (result !! "content") as [c|] eqn:Hc; [|left; reflexivity].
    destruct (truthy c) eqn:Htc; [|left; reflexivity].
    right. simpl. rewrite lookup_total_alt, Hc. simpl.
    eexists. eexists. split; [reflexivity|].
    rewrite !lookup_total_alt, Hv, Hc in Hslice. simpl in Hslice.
    rewrite Htv in Hslice.
    destruct c; try discriminate.
    + left. eexists. split; [reflexivity|].
      intros ->. discriminate.
    + right. eexists. split; [reflexivity|].
      intros ->. discriminate.
Qed.

End CognitiveEngineExtra.


(** ** The orchestrator listening and looping *)

Module ListeningProps.
Import Orchestrator Listening.

Lemma last_n_short {A : Type} (n : nat) (l : list A) :
  (length l <= n)%nat -> last_n n l = l.
Proof.
  intros H. unfold last_n. replace (length l - n)%nat with 0%nat by lia.
  reflexivity.
Qed.

Lemma length_last_n {A : Type} (n : nat) (l : list A) :
  (length (last_n n l) <= n)%nat.
Proof. unfold last_n. rewrite length_drop. lia. Qed.

Lemma last_n_snoc {A : Type} (n : nat) (l : list A) (x : A) :
  last_n n (last_n n l ++ [x]) = last_n n (l ++ [x]).
Proof. apply (AudioMonitorExtra.drop_snoc_window n l x). Qed.

Lemma last_n_app {A : Type} (n : nat) (l m : list A) :
  last_n n (last_n n l ++ m) = last_n n (l ++ m).
Proof.
  induction m as [|x m IH] using rev_ind.
  - rewrite !app_nil_r. apply last_n_short, length_last_n.
  - rewrite !app_assoc.
    rewrite <- (last_n_snoc n (last_n n l ++ m)), IH.
    apply last_n_snoc.
Qed.

(** Appending under the cap of the history. *)
Lemma capped_append (cap : nat) (h : list string) (x : string) :
  (length h <= cap)%nat ->
  (if (cap <? length (h ++ [x]))%nat then tail (h ++ [x]) else h ++ [x]) =
    last_n cap (h ++ [x]).
Proof.
  intros H. unfold last_n. rewrite length_app. simpl.
  destruct (cap <? length h + 1)%nat eqn:E.
  - apply Nat.ltb_lt in E. replace (length h + 1 - cap)%nat with 1%nat by lia.
    destruct (h ++ [x]); reflexivity.
  - apply Nat.ltb_ge in E. replace (length h + 1 - cap)%nat with 0%nat by lia.
    reflexivity.
Qed.

Lemma _on_user_speech_history said s :
  (length (user_history s) <= max_history s)%nat ->
  user_history (_on_user_speech said s) =
    last_n (max_history s) (user_history s ++ [said]) /\
  max_history (_on_user_speech said s) = max_history s.
Proof.
  intros H. unfold _on_user_speech. simpl.
  split; [apply capped_append, H|reflexivity].
Qed.

Lemma _on_wake_word_history said s :
  (length (user_history s) <= max_history s)%nat ->
  user_history (fst (_on_wake_word said s)) =
    last_n (max_history s) (user_history s ++ [said]) /\
  max_history (fst (_on_wake_word said s)) = max_history s.
Proof.
  intros H. unfold _on_wake_word. simpl.
  split; [apply capped_append, H|reflexivity].
Qed.

Lemma _on_distress_history now said s :
  user_history (fst (_on_distress now said s)) = user_history s /\
  max_history (fst (_on_distress now said s)) = max_history s.
Proof.
  unfold _on_distress. destruct (_ <? _); split; reflexivity.
Qed.

Lemma handle_all_history handled calls : forall s,
  (length (user_history s) <= max_history s)%nat ->
  user_history (fst (handle_all handled calls s)) =
    last_n (max_history s) (user_history s ++ concat (map entered calls)) /\
  max_history (fst (handle_all handled calls s)) = max_history s.
Proof.
  induction calls as [|c calls IH]; intros s Hlen.
  - simpl. rewrite app_nil_r, last_n_short by exact Hlen. split; reflexivity.
  - cbn [handle_all map concat].
    assert (Hstep :
      user_history (fst (handle handled c s)) =
        last_n (max_history s) (user_history s ++ entered c) /\
      max_history (fst (handle handled c s)) = max_history s).
    { destruct c as [said|said|said]; cbn [handle entered fst].
      - apply _on_wake_word_history, Hlen.
      - destruct (_on_distress_history handled said s) as [H M].
        rewrite H, M, app_nil_r, last_n_short by exact Hlen.
        split; reflexivity.
      - apply _on_user_speech_history, Hlen. }
    destruct Hstep as [H1 M1].
    destruct (handle handled c s) as [s1 spoken]. cbn [fst] in H1, M1.
    assert (Hlen1 : (length (user_history s1) <= max_history s1)%nat)
      by (rewrite H1, M1; apply length_last_n).
    destruct (IH s1 Hlen1) as [H2 M2].
    destruct (handle_all handled calls s1) as [s2 more]. cbn [fst] in *.
    rewrite H2, M2, M1, H1, last_n_app, <- app_assoc. split; reflexivity.
Qed.

(** One utterance heard with the three callbacks installed. *)
Lemma hear_history stamp now handled heard v s :
  VoiceInterface.on_wake_word v = true ->
  VoiceInterface.on_distress v = true ->
  VoiceInterface.on_user_speech v = true ->
  (length (user_history s) <= max_history s)%nat ->
  let v' := fst (fst (hear stamp now handled heard (v, s))) in
  let s' := snd (fst (hear stamp now handled heard (v, s))) in
  user_history s' =
    last_n (max_history s)
      (user_history s ++ history_entries (VoiceInterface.wake_word v) heard) /\
  max_history s' = max_history s /\
  VoiceInterface.wake_word v' = VoiceInterface.wake_word v /\
  VoiceInterface.on_wake_word v' = true /\
  VoiceInterface.on_distress v' = true /\
  VoiceInterface.on_user_speech v' = true.
Proof.
  intros Hw Hd Hu Hlen. unfold hear. cbn [fst snd].
  destruct (VoiceInterface._on_recognized stamp now true heard v)
    as [v' calls] eqn:Hrec.
  destruct (handle_all_history handled calls s Hlen) as [H M].
  destruct (handle_all handled calls s) as [s' spoken]. cbn [fst snd] in *.
  rewrite H, M.
  unfold VoiceInterface._on_recognized, history_entries in *.
  cbn [negb] in Hrec.
  destruct (String.eqb (Text.strip heard) "").
  - injection Hrec as <- <-. repeat split; assumption.
  - rewrite Hw, Hd, Hu, !andb_true_r in Hrec.
    injection Hrec as <- <-. cbn.
    destruct (Text.is_in (VoiceInterface.wake_word v) _);
      destruct (Text.any_in (VoiceInterface.distress_keywords v) _);
      repeat split.
Qed.

Lemma hear_all_history utterances : forall v s,
  VoiceInterface.on_wake_word v = true ->
  VoiceInterface.on_distress v = true ->
  VoiceInterface.on_user_speech v = true ->
  (length (user_history s) <= max_history s)%nat ->
  user_history (snd (hear_all utterances (v, s))) =
    last_n (max_history s)
      (user_history s ++
       concat (map (fun u => history_entries (VoiceInterface.wake_word v) (snd u))
                   utterances)).
Proof.
  induction utterances as [|[[now handled] heard] rest IH];
    intros v s Hw Hd Hu Hlen.
  - simpl. rewrite app_nil_r, last_n_short by exact Hlen. reflexivity.
  - cbn [hear_all map concat snd].
    destruct (hear_history "" now handled heard v s Hw Hd Hu Hlen)
      as (H1 & M1 & W1 & Hw1 & Hd1 & Hu1).
    destruct (hear "" now handled heard (v, s)) as [[v1 s1] spoken].
    simpl in *.
    rewrite IH; try assumption.
    + rewrite M1, H1, W1, last_n_app, <- app_assoc. reflexivity.
    + rewrite H1, M1. apply length_last_n.
Qed.

(** X14. With the callbacks wired as [start] wires them, the history of the
    user's utterances holds the last 20 entries, oldest first, where an
    utterance that is not blank is entered once, and once more when it
    holds the wake word (both [_on_wake_word] and [_on_user_speech] enter
    it); it never grows past 20. *)
Theorem history_holds_the_last_twenty
    (wake : option string) (started : Z) (deployment : option string)
    (utterances : list (Z * Z * string)) :
  let v := VoiceInterface.install true true true (VoiceInterface.init wake) in
  let s := snd (hear_all utterances (v, Orchestrator.init started deployment)) in
  user_history s =
    last_n 20
      (concat (map (fun u => history_entries (VoiceInterface.wake_word v) (snd u))
                   utterances)) /\
  (length (user_history s) <= 20)%nat.
Proof.
  intros v s.
  assert (H : user_history s =
    last_n 20
      (concat (map (fun u => history_entries (VoiceInterface.wake_word v) (snd u))
                   utterances))).
  { unfold s. rewrite hear_all_history; try reflexivity. simpl. lia. }
  split; [exact H|]. rewrite H. apply length_last_n.
Qed.

(** X15. Once the listener has heard a distress keyword at some time, it
    reports recent distress exactly during the 10 seconds that follow, and
    during them no iteration of the main loop speaks, whatever the
    reasoning service answers. *)
Theorem silence_for_ten_seconds_after_distress
    (stamp : string) (now handled later : Z) (heard : string)
    (v : VoiceInterface.t) (s : Orchestrator.t) :
  Text.strip heard <> "" ->
  Text.any_in (VoiceInterface.distress_keywords v)
    (Text.lower (Text.strip heard)) = true ->
  let v' := fst (fst (hear stamp now handled heard (v, s))) in
  VoiceInterface.distress_detected_recently 10 later v' =
    (later - now <? 10 * 1000000) /\
  (later - now < 10 * 1000000 ->
   forall str_exn timestamp r loop_count s',
     snd (main_loop_iteration_listening str_exn timestamp later v' r
            loop_count s') = []).
Proof.
  intros Hblank Hkey.
  assert (Hv : VoiceInterface.last_distress_time
                 (fst (fst (hear stamp now handled heard (v, s)))) = Some now).
  { unfold hear, VoiceInterface._on_recognized. simpl.
    apply String.eqb_neq in Hblank. rewrite Hblank, Hkey.
    destruct (handle_all _ _ _). reflexivity. }
  simpl. unfold main_loop_iteration_listening,
    VoiceInterface.distress_detected_recently.
  rewrite Hv. split; [reflexivity|].
  intros Hsoon str_exn timestamp r loop_count s'.
  apply Z.ltb_lt in Hsoon. rewrite Hsoon. reflexivity.
Qed.

Lemma silence_for_ten_seconds_after_distress_witness :
  let v := VoiceInterface.install true true true (VoiceInterface.init None) in
  let s := Orchestrator.init 0 (Some "gpt-4o") in
  let v' := fst (fst (hear "" 40000000 40000001 " Please STOP it " (v, s))) in
  snd (main_loop_iteration_listening CognitiveEngine.exn_class "T" 49999999 v'
         (CognitiveEngine.Parsed
            (JObj [("should_speak", JBool true); ("content", JStr "Look!")]))
         30 (publish (observation "a scene") s)) = [].
Proof.
  intros v s v'.
  apply (silence_for_ten_seconds_after_distress "" 40000000 40000001 49999999
           " Please STOP it " v s); [discriminate|reflexivity|lia].
Defined.

Lemma speak_decision_length decision :
  (length (speak_decision decision) <= 1)%nat.
Proof. unfold speak_decision. destruct (_ && _); simpl; lia. Qed.

Lemma main_loop_iteration_state str_exn timestamp distress r loop_count s :
  fst (main_loop_iteration str_exn timestamp distress r loop_count s) =
    take_caption s.
Proof.
  unfold main_loop_iteration. destruct distress; [reflexivity|].
  destruct (latest_caption (take_caption s)); [|reflexivity].
  destruct (engine (take_caption s)); [|reflexivity].
  destruct (_ && _); reflexivity.
Qed.

(** X16. An iteration of the main loop speaks one utterance at most, and
    speaks only when no distress was heard recently, the iteration is a
    30th one, a caption that is not empty is known, the engine was built,
    and the reasoning service answered with a JSON object; the only state
    it changes is the caption it takes off the queue. *)
Theorem main_loop_speaks_only_when
    (str_exn : exn -> string) (timestamp : string) (distress_recent : bool)
    (r : CognitiveEngine.reply) (loop_count : Z) (s : Orchestrator.t) :
  let out := main_loop_iteration str_exn timestamp distress_recent r loop_count s in
  fst out = take_caption s /\
  (length (snd out) <= 1)%nat /\
  (snd out <> [] ->
   distress_recent = false /\
   loop_count mod 30 = 0 /\
   (exists scene, latest_caption (take_caption s) = Some scene /\ scene <> "") /\
   is_Some (engine s) /\
   exists fields, r = CognitiveEngine.Parsed (JObj fields)).
Proof.
  simpl. split; [apply main_loop_iteration_state|].
  unfold main_loop_iteration.
  destruct distress_recent; [split; [simpl; lia|intros []; reflexivity]|].
  destruct (latest_caption (take_caption s)) as [scene|] eqn:Hscene;
    [|split; [simpl; lia|intros []; reflexivity]].
  destruct (engine (take_caption s)) as [deployment|] eqn:Hengine;
    [|split; [simpl; lia|intros []; reflexivity]].
  destruct (negb (String.eqb scene "") && (loop_count mod 30 =? 0)) eqn:Hgate;
    [|split; [simpl; lia|intros []; reflexivity]].
  simpl. split; [apply speak_decision_length|].
  intros Hspoken.
  apply andb_true_iff in Hgate as [Hne H30].
  apply negb_true_iff, String.eqb_neq in Hne. apply Z.eqb_eq in H30.
  split; [reflexivity|]. split; [exact H30|].
  split; [exists scene; split; [reflexivity|exact Hne]|].
  split.
  - unfold take_caption in Hengine.
    destruct (Queue.get_nowait (caption_queue s)) as [[item rest]|];
      simpl in Hengine; rewrite Hengine; eauto.
  - destruct (CognitiveEngineExtra.analyze_context_cases str_exn deployment
                timestamp r) as [[reason E]|(fields & -> & _)].
    + rewrite E, FallbackProps.speak_decision_fallback in Hspoken.
      contradiction.
    + eauto.
Qed.

Lemma main_loop_speaks_only_when_witness :
  let s := publish (observation "a scene") (Orchestrator.init 0 (Some "gpt-4o")) in
  let r := CognitiveEngine.Parsed
             (JObj [("should_speak", JBool true); ("content", JStr "Look!")]) in
  snd (main_loop_iteration CognitiveEngine.exn_class "T" false r 60 s)
    = [ {| text := JStr "Look!"; style := JStr "neutral" |} ] /\
  60 mod 30 = 0.
Proof.
  intros s r.
  destruct (main_loop_speaks_only_when CognitiveEngine.exn_class "T" false r 60 s)
    as (_ & _ & H).
  split; [reflexivity|]. apply H. discriminate.
Defined.

Lemma take_caption_queue s :
  caption_queue (take_caption s) = drop 1 (caption_queue s) /\
  latest_caption (take_caption s) =
    match head (caption_queue s) with
    | Some item => Some (caption item)
    | None => latest_caption s
    end.
Proof.
  unfold take_caption. destruct (caption_queue s) as [|item rest] eqn:E; simpl.
  - rewrite E. split; reflexivity.
  - split; reflexivity.
Qed.

(** X17. While the producer is idle, the main loop drains the queue one
    observation per iteration, oldest first: after [k] iterations the first
    [k] queued observations are gone and the caption held is that of the
    [k]-th (so of [n] waiting observations the newest is seen only at the
    [n]-th iteration). *)
Theorem backlog_drains_one_per_iteration
    (str_exn : exn -> string)
    (inputs : list (bool * CognitiveEngine.reply * string))
    (loop_count : Z) (s : Orchestrator.t) :
  let s' := fst (main_loop str_exn inputs loop_count s) in
  let k := length inputs in
  caption_queue s' = drop k (caption_queue s) /\
  latest_caption s' =
    match last (take k (caption_queue s)) with
    | Some item => Some (caption item)
    | None => latest_caption s
    end.
Proof.
  revert loop_count s.
  induction inputs as [|[[distress r] timestamp] inputs IH]; intros loop_count s.
  - simpl. split; reflexivity.
  - cbn [main_loop length].
    pose proof (main_loop_iteration_state str_exn timestamp distress r
                  (loop_count + 1) s) as Hstate.
    destruct (main_loop_iteration str_exn timestamp distress r (loop_count + 1) s)
      as [s1 spoken]. simpl in Hstate. subst s1.
    specialize (IH (loop_count + 1) (take_caption s)).
    destruct (main_loop str_exn inputs (loop_count + 1) (take_caption s))
      as [s2 more]. simpl in *.
    destruct IH as [Hq Hl].
    destruct (take_caption_queue s) as [Hq1 Hl1].
    rewrite Hq, Hq1, Hl, Hq1, Hl1.
    destruct (caption_queue s) as [|item rest]; simpl.
    + rewrite drop_nil, take_nil. split; reflexivity.
    + rewrite drop_0. split; [reflexivity|].
      rewrite last_cons. destruct (last (take (length inputs) rest)); reflexivity.
Qed.

Lemma iteration_speaks_on_thirtieth str_exn timestamp distress r loop_count s :
  let out := main_loop_iteration str_exn timestamp distress r loop_count s in
  (length (snd out) <= 1)%nat /\
  (snd out <> [] -> loop_count mod 30 = 0).
Proof.
  simpl. unfold main_loop_iteration.
  destruct distress; [split; [simpl; lia|intros []; reflexivity]|].
  destruct (latest_caption (take_caption s)) as [scene|];
    [|split; [simpl; lia|intros []; reflexivity]].
  destruct (engine (take_caption s)) as [deployment|];
    [|split; [simpl; lia|intros []; reflexivity]].
  destruct (negb (String.eqb scene "") && (loop_count mod 30 =? 0)) eqn:Hgate;
    [|split; [simpl; lia|intros []; reflexivity]].
  simpl. split; [apply speak_decision_length|]. intros _.
  apply andb_true_iff in Hgate as [_ H30]. apply Z.eqb_eq, H30.
Qed.

Lemma multiples_step (c : Z) :
  (c + 1) / 30 - c / 30 = if (c + 1) mod 30 =? 0 then 1 else 0.
Proof.
  destruct ((c + 1) mod 30 =? 0) eqn:E.
  - apply Z.eqb_eq in E. Z.to_euclidean_division_equations. lia.
  - apply Z.eqb_neq in E. Z.to_euclidean_division_equations. lia.
Qed.

(** X18. The main loop asks the reasoning engine on every 30th iteration
    only: over iterations number [c + 1] to [c + k] it speaks at most as
    many utterances as there are multiples of 30 among them, so at most
    [k / 30] from the start of the loop. *)
Theorem main_loop_speaks_once_in_thirty
    (str_exn : exn -> string)
    (inputs : list (bool * CognitiveEngine.reply * string))
    (loop_count : Z) (s : Orchestrator.t) :
  Z.of_nat (length (snd (main_loop str_exn inputs loop_count s))) <=
    (loop_count + Z.of_nat (length inputs)) / 30 - loop_count / 30 /\
  Z.of_nat (length (snd (main_loop str_exn inputs 0 s))) <=
    Z.of_nat (length inputs) / 30.
Proof.
  assert (H : forall inputs c s,
    Z.of_nat (length (snd (main_loop str_exn inputs c s))) <=
      (c + Z.of_nat (length inputs)) / 30 - c / 30).
  { clear. intros inputs.
    induction inputs as [|[[distress r] timestamp] inputs IH]; intros c s.
    - simpl. rewrite Z.add_0_r. lia.
    - cbn [main_loop length].
      pose proof (iteration_speaks_on_thirtieth str_exn timestamp distress r
                    (c + 1) s) as (Hone & Hwhen).
      destruct (main_loop_iteration str_exn timestamp distress r (c + 1) s)
        as [s1 spoken]. simpl in Hone, Hwhen.
      specialize (IH (c + 1) s1).
      destruct (main_loop str_exn inputs (c + 1) s1) as [s2 more]. simpl in *.
      rewrite length_app.
      pose proof (multiples_step c) as Hstep.
      replace (c + Z.of_nat (S (length inputs)))
        with (c + 1 + Z.of_nat (length inputs)) by lia.
      set (upper := (c + 1 + Z.of_nat (length inputs)) / 30) in *.
      set (middle := (c + 1) / 30) in *.
      set (lower := c / 30) in *.
      destruct spoken as [|sp spoken].
      + simpl. destruct ((c + 1) mod 30 =? 0); lia.
      + pose proof (Hwhen ltac:(discriminate)) as H30.
        rewrite H30 in Hstep. simpl in Hstep, Hone |- *. lia. }
  split; [apply H|].
  pose proof (H inputs 0 s) as H0.
  rewrite Z.add_0_l in H0. change (0 / 30) with 0 in H0. lia.
Qed.

End ListeningProps.


(** ** The scripted timeline, the wizard and the demo controller *)

Module DemoExtra.
Import DemoMode DemoModeProps.





(** X21. The demo timeline has no gap: for every time from 0 on the lookup
    returns an entry of the table, and the generic response is returned
    for negative times only. *)
Theorem demo_timeline_has_no_gap (now : Z) (seconds : Q) (s : t) :
  clip_responses s = DEMO_CLIP_RESPONSES ->
  ((0 <= seconds)%Q ->
   exists time_range data,
     In (time_range, data) DEMO_CLIP_RESPONSES /\
     get_response_for_timestamp now (Some seconds) s = Returned data) /\
  ((seconds < 0)%Q ->
   get_response_for_timestamp now (Some seconds) s = Returned (generic_entry s)).
Proof.
  intros Htable.
  destruct (get_response_for_timestamp_demo now (Some seconds) s Htable)
    as [(d & Hget & Hcov)|[Hget Hnone]]; simpl in *.
  - split.
    + intros _. destruct Hcov as (k & b & Hin & _). exists k, d.
      split; assumption.
    + intros Hneg. exfalso.
      destruct Hcov as (k & b & Hin & Hk & Hlo & _). simpl in Hin.
      repeat (destruct Hin as [Hin|Hin]; [injection Hin as <- <-|]);
        try contradiction;
        vm_compute in Hk; injection Hk as <-; simpl in Hlo; lra.
  - split; [|intros _; exact Hget].
    intros Hpos. exfalso.
    assert (Hcase : forall k d lo hi,
      In (k, d) DEMO_CLIP_RESPONSES -> interval_of k = Some (lo, hi) ->
      (lo <= seconds)%Q ->
      match hi with Some h => (seconds < h)%Q | None => True end -> False).
    { intros k d lo hi Hin Hk Hlo Hhi. apply (Hnone d).
      exists k, (lo, hi). repeat split; assumption. }
    destruct (Qlt_le_dec seconds 10) as [H10|H10];
      [eapply (Hcase "0-10" _ 0%Q (Some 10%Q));
         [left; reflexivity|reflexivity|lra|exact H10]|].
    destruct (Qlt_le_dec seconds 30) as [H30|H30];
      [eapply (Hcase "10-30" _ 10%Q (Some 30%Q));
         [right; left; reflexivity|reflexivity|lra|exact H30]|].
    destruct (Qlt_le_dec seconds 60) as [H60|H60];
      [eapply (Hcase "30-60" _ 30%Q (Some 60%Q));
         [do 2 right; left; reflexivity|reflexivity|lra|exact H60]|].
    destruct (Qlt_le_dec seconds 120) as [H120|H120];
      [eapply (Hcase "60-120" _ 60%Q (Some 120%Q));
         [do 3 right; left; reflexivity|reflexivity|lra|exact H120]|].
    destruct (Qlt_le_dec seconds 180) as [H180|H180];
      [eapply (Hcase "120-180" _ 120%Q (Some 180%Q));
         [do 4 right; left; reflexivity|reflexivity|lra|exact H180]|].
    destruct (Qlt_le_dec seconds 240) as [H240|H240];
      [eapply (Hcase "180-240" _ 180%Q (Some 240%Q));
         [do 5 right; left; reflexivity|reflexivity|lra|exact H240]|].
    eapply (Hcase "240+" _ 240%Q None);
      [do 6 right; left; reflexivity|reflexivity|lra|exact I].
Qed.

Lemma demo_timeline_has_no_gap_witness :
  (exists time_range data,
     In (time_range, data) DEMO_CLIP_RESPONSES /\
     get_response_for_timestamp 0 (Some 1000%Q) init = Returned data) /\
  get_response_for_timestamp 0 (Some (-1)%Q) init = Returned (generic_entry init).
Proof.
  destruct (demo_timeline_has_no_gap 0 1000 init eq_refl) as [H _].
  destruct (demo_timeline_has_no_gap 0 (-1) init eq_refl) as [_ H'].
  split; [apply H; discriminate|apply H'; reflexivity].
Defined.

Lemma fallback_responses_nonempty key said :
  FALLBACK_RESPONSES !! key = Some said -> said <> "".
Proof.
  intros H. apply elem_of_list_to_map_2 in H.
  apply list_elem_of_In in H. simpl in H.
  repeat (destruct H as [H|H]; [injection H as <- <-; discriminate|]).
  contradiction.
Qed.

(** X22. A manual trigger always speaks exactly one utterance, and never an
    empty one: the response registered under the given type when the type
    is a key of the fallback table, the generic response otherwise.  The
    types scene and question are no keys of that table, so they speak the
    generic response. *)
Theorem manual_trigger_always_speaks (response_type : string) :
  (exists said,
     WizardOfOz.trigger_manual response_type =
       [ {| WizardOfOz.text := said;
            WizardOfOz.emotion := WizardOfOz.emotion_of response_type |} ] /\
     said <> "" /\
     match FALLBACK_RESPONSES !! response_type with
     | Some found => said = found
     | None => FALLBACK_RESPONSES !! "generic" = Some said
     end) /\
  WizardOfOz.trigger_manual "scene" =
    [ {| WizardOfOz.text := FALLBACK_RESPONSES !!! "generic";
         WizardOfOz.emotion := "calm" |} ] /\
  WizardOfOz.trigger_manual "question" =
    [ {| WizardOfOz.text := FALLBACK_RESPONSES !!! "generic";
         WizardOfOz.emotion := "neutral" |} ].
Proof.
  split; [|split; vm_compute; reflexivity].
  unfold WizardOfOz.trigger_manual.
  destruct (FALLBACK_RESPONSES !! response_type) as [found|] eqn:E.
  - exists found. split; [reflexivity|].
    split; [apply (fallback_responses_nonempty _ _ E)|reflexivity].
  - eexists. split; [reflexivity|].
    rewrite lookup_total_alt, generic_response. simpl.
    split; [discriminate|reflexivity].
Qed.

(** X23. The demo controller never answers with an empty content: a reply
    of the reasoning engine whose content is not empty is passed through
    unchanged, whether the timeline runs or not; every other reply, and
    none at all, is replaced by a decision to speak a content that is not
    empty. *)
Theorem controller_never_silent
    (now : Z) (azure_response : option (gmap string json))
    (dc : DemoController.t) :
  clip_responses (DemoController.demo_mode dc) = DEMO_CLIP_RESPONSES ->
  fallback_responses (DemoController.demo_mode dc) = FALLBACK_RESPONSES ->
  (DemoController.usable azure_response = true ->
   exists d, azure_response = Some d /\
             DemoController.get_response now azure_response dc = Returned d) /\
  (exists d, DemoController.get_response now azure_response dc = Returned d /\
             Orchestrator.get_truthy d "content" = true).
Proof.
  intros Htable Hfallback.
  destruct (DemoController.usable azure_response) eqn:Husable.
  - assert (H : exists d, azure_response = Some d /\
                  DemoController.get_response now azure_response dc = Returned d).
    { unfold DemoController.get_response. rewrite Husable.
      destruct azure_response as [d|]; [|discriminate].
      exists d. split; reflexivity. }
    split; [intros _; exact H|].
    destruct H as (d & -> & Hget). exists d. split; [exact Hget|].
    unfold DemoController.usable in Husable.
    apply andb_true_iff in Husable as [_ Hcontent].
    unfold Orchestrator.get_truthy. exact Hcontent.
  - split; [discriminate|].
    destruct (FallbackProps.get_response_backup now azure_response dc
                Husable Htable Hfallback)
      as (backup & content & Hget & _ & Hcontent & Hne & _).
    exists backup. split; [exact Hget|].
    unfold Orchestrator.get_truthy. rewrite Hcontent. simpl.
    apply negb_true_iff, String.eqb_neq, Hne.
Qed.

Lemma controller_never_silent_witness :
  exists d,
    DemoController.get_response 0 None (DemoController.init false) = Returned d /\
    Orchestrator.get_truthy d "content" = true.
Proof.
  apply (controller_never_silent 0 None (DemoController.init false));
    reflexivity.
Defined.

End DemoExtra.


(** ** The activity log *)

Module ActivityLogProps.
Import ActivityLog.

Lemma log_all_unreadable calls : log_all calls Unreadable = Unreadable.
Proof.
  induction calls as [|[[[stamp log_type] said] current_mood] calls IH];
    [reflexivity|exact IH].
Qed.

(** The file after a run of calls, from a file that loads or is absent and
    whose counter is there. *)
Lemma log_all_stored calls : forall f,
  f <> Unreadable ->
  (length (stored_logs f) <= 50)%nat ->
  forall n, stored_interventions f = Some n ->
  stored_logs (log_all calls f) =
    last_n 50 (stored_logs f ++ map entry_of calls) /\
  stored_interventions (log_all calls f) =
    Some (n + Z.of_nat (length (List.filter is_action calls))) /\
  (calls <> [] -> exists data, log_all calls f = Stored data).
Proof.
  induction calls as [|[[[stamp log_type] said] current_mood] calls IH];
    intros f Hf Hlen n Hn.
  - simpl. rewrite app_nil_r, Z.add_0_r.
    split; [symmetry; apply ListeningProps.last_n_short, Hlen|].
    split; [exact Hn|]. intros []. reflexivity.
  - change (log_all ((stamp, log_type, said, current_mood) :: calls) f)
      with (log_all calls (_log_activity stamp log_type said current_mood f)).
    set (f1 := _log_activity stamp log_type said current_mood f).
    assert (H1 : exists d1, f1 = Stored d1 /\
      logs d1 = last_n 50 (stored_logs f ++
                  [ {| time := stamp; type := log_type; message := said |} ]) /\
      interventions d1 =
        Some (n + if String.eqb log_type "ACTION" then 1 else 0)).
    { unfold f1, _log_activity.
      destruct f as [| |d]; [|contradiction|]; simpl in Hn |- *.
      - injection Hn as <-. eexists. split; [reflexivity|]. simpl.
        split; [reflexivity|].
        destruct (String.eqb log_type "ACTION"); reflexivity.
      - eexists. split; [reflexivity|]. simpl. split; [reflexivity|].
        rewrite Hn. destruct (String.eqb log_type "ACTION"); simpl;
          f_equal; lia. }
    destruct H1 as (d1 & Hf1 & Hl1 & Hi1).
    destruct (IH f1) with (n := n + if String.eqb log_type "ACTION" then 1 else 0)
      as (Hlogs & Hcount & Hstored).
    + rewrite Hf1. discriminate.
    + rewrite Hf1. simpl. rewrite Hl1. apply ListeningProps.length_last_n.
    + rewrite Hf1. exact Hi1.
    + split; [|split].
      * rewrite Hlogs, Hf1. simpl stored_logs. rewrite Hl1.
        rewrite ListeningProps.last_n_app, <- app_assoc. reflexivity.
      * rewrite Hcount. cbn [List.filter is_action].
        destruct (String.eqb log_type "ACTION"); simpl length; f_equal; lia.
      * intros _. destruct calls as [|c calls'].
        -- exists d1. exact Hf1.
        -- apply Hstored. discriminate.
Qed.

(** X24. Started with no file, the activity log holds after any calls of
    [_log_activity] the last 50 entries logged, oldest first, and counts as
    interventions the entries of type ACTION; a file that does not load is
    never written again, whatever is logged. *)
Theorem activity_log_keeps_last_fifty (calls : list call) :
  (calls <> [] ->
   exists data,
     log_all calls Missing = Stored data /\
     logs data = last_n 50 (map entry_of calls) /\
     (length (logs data) <= 50)%nat /\
     interventions data =
       Some (Z.of_nat (length (List.filter is_action calls)))) /\
  log_all calls Unreadable = Unreadable.
Proof.
  split; [|apply log_all_unreadable].
  intros Hne.
  destruct (log_all_stored calls Missing ltac:(discriminate)
              ltac:(simpl; lia) 0 eq_refl) as (Hlogs & Hcount & Hstored).
  destruct (Hstored Hne) as [d Hd]. rewrite Hd in Hlogs, Hcount.
  simpl in Hlogs, Hcount.
  exists d. split; [exact Hd|]. split; [exact Hlogs|].
  split; [rewrite Hlogs; apply ListeningProps.length_last_n|exact Hcount].
Qed.

Lemma activity_log_keeps_last_fifty_witness :
  exists data,
    log_all [("10:00:00", "VISION", "a scene", "Calm");
             ("10:00:03", "ACTION", "spoke", "Calm")] Missing = Stored data /\
    interventions data = Some 1.
Proof.
  destruct (activity_log_keeps_last_fifty
              [("10:00:00", "VISION", "a scene", "Calm");
               ("10:00:03", "ACTION", "spoke", "Calm")]) as [H _].
  destruct (H ltac:(discriminate)) as (d & Hd & _ & _ & Hn).
  exists d. split; [exact Hd|exact Hn].
Defined.




End ActivityLogProps.

(** ** The vision worker *)

Module VisionWorkerProps.
Import VisionPipeline VisionWorker.

Section Worker.
Variables frame gray : Type.
Variable cvtColor : frame -> gray.
Variable ssim : gray -> gray -> option Q.

Abbreviation worker := (VisionWorker.t gray).
Abbreviation iteration := (VisionWorker.iteration cvtColor ssim).
Abbreviation run := (VisionWorker.run cvtColor ssim).

Lemma iteration_step (i : pass frame) (w : worker) :
  (snd (iteration i w) = [] /\ fst (iteration i w) = w) \/
  (snd (iteration i w) = [current_time frame i] /\
   (last_analysis_time w + 15 <= current_time frame i)%Q /\
   last_analysis_time (fst (iteration i w)) = current_time frame i /\
   (length (Orchestrator.caption_queue (orchestrator (fst (iteration i w))))
    <= S (length (Orchestrator.caption_queue (orchestrator w))))%nat /\
   (length (Orchestrator.caption_queue (orchestrator w))
    <= length (Orchestrator.caption_queue (orchestrator (fst (iteration i w)))))%nat).
Proof.
  unfold VisionWorker.iteration.
  destruct (got frame i) as [f|]; [|left; split; reflexivity].
  destruct (Qgeb _ _) eqn:Hdue; [|left; split; reflexivity].
  right. apply Qgeb_true in Hdue. unfold MIN_ANALYSIS_INTERVAL in Hdue.
  destruct (process_frame _ _ _ _ _ _ _) as [[item|] p]; simpl.
  - split; [reflexivity|]. split; [lra|]. split; [reflexivity|].
    unfold Queue.put. rewrite length_app. simpl. lia.
  - split; [reflexivity|]. split; [lra|]. split; [reflexivity|]. lia.
Qed.

(** X26. The vision worker calls [process_frame], and with it the analysis
    service, at most once per 15 seconds of its clock: each call comes at
    least 15 s after the one before.  A call publishes one observation at
    most, so the caption queue grows by no more than the number of calls
    (and the worker never takes anything off it). *)
Theorem worker_calls_fifteen_seconds_apart (passes : list (pass frame)) (w : worker) :
  let w' := fst (run passes w) in
  let calls := snd (run passes w) in
  spaced 15 (last_analysis_time w) calls /\
  (length (Orchestrator.caption_queue (orchestrator w))
   <= length (Orchestrator.caption_queue (orchestrator w')))%nat /\
  (length (Orchestrator.caption_queue (orchestrator w'))
   <= length (Orchestrator.caption_queue (orchestrator w)) + length calls)%nat.
Proof.
  revert w. induction passes as [|i passes IH]; intros w.
  - simpl. repeat split; lia.
  - cbn [VisionWorker.run].
    pose proof (iteration_step i w) as Hstep.
    destruct (iteration i w) as [w1 called]. cbn [fst snd] in Hstep.
    specialize (IH w1).
    destruct (run passes w1) as [w2 more]. cbn [fst snd] in *.
    destruct IH as (Hsp & Hge & Hle).
    destruct Hstep as [[-> ->]|(-> & Hdue & Hlast & Hq1 & Hq2)].
    + simpl. repeat split; assumption.
    + simpl. rewrite Hlast in Hsp.
      split; [split; assumption|]. split; lia.
Qed.

End Worker.

End VisionWorkerProps.


(** ** The mock services in the demo loop *)

Module MockServicesProps.
Import MockServices.

Lemma div_30_step (n : nat) :
  (S n / 30 = n / 30 + (if (S n mod 30 =? 0) then 1 else 0))%nat.
Proof.
  destruct (S n mod 30 =? 0)%nat eqn:E.
  - apply Nat.eqb_eq in E.
    pose proof (Nat.div_mod_eq (S n) 30). pose proof (Nat.div_mod_eq n 30).
    pose proof (Nat.mod_upper_bound n 30 ltac:(lia)).
    nia.
  - apply Nat.eqb_neq in E.
    pose proof (Nat.div_mod_eq (S n) 30). pose proof (Nat.div_mod_eq n 30).
    pose proof (Nat.mod_upper_bound n 30 ltac:(lia)).
    pose proof (Nat.mod_upper_bound (S n) 30 ltac:(lia)).
    nia.
Qed.

Lemma succ_mod_5 (k : nat) : (S (k mod 5) mod 5 = S k mod 5)%nat.
Proof.
  pose proof (Nat.div_mod_eq k 5). pose proof (Nat.mod_upper_bound k 5 ltac:(lia)).
  replace (S k) with (S (k mod 5) + (k / 5) * 5)%nat by lia.
  rewrite Nat.Div0.mod_add. reflexivity.
Qed.

Lemma speak_decision_metadata (m : json) (d : gmap string json) :
  Orchestrator.speak_decision (<["metadata" := m]> d) =
    Orchestrator.speak_decision d.
Proof.
  unfold Orchestrator.speak_decision, Orchestrator.get_truthy.
  rewrite !lookup_total_alt, !lookup_insert_ne by discriminate. reflexivity.
Qed.

(** The state after a run that started with [n] frames seen. *)
Lemma demo_loop_from stamps : forall (v : vision) (index : nat),
  analysis_count v = (frame_count v / 30)%nat ->
  _scene_index v = (analysis_count v mod 5)%nat ->
  index = (analysis_count v mod 5)%nat ->
  let n := (frame_count v + length stamps)%nat in
  let '(v', index', spoken) := demo_loop stamps (v, index) in
  frame_count v' = n /\
  analysis_count v' = (n / 30)%nat /\
  _scene_index v' = ((n / 30) mod 5)%nat /\
  index' = ((n / 30) mod 5)%nat /\
  spoken = flat_map mock_says
             (seq (S (analysis_count v)) (n / 30 - analysis_count v)).
Proof.
  induction stamps as [|stamp stamps IH]; intros v index Ha Hs Hi; cbv zeta.
  - cbn [demo_loop length]. rewrite Nat.add_0_r, <- Ha, Nat.sub_diag.
    cbn [seq flat_map]. repeat split; assumption.
  - cbn [demo_loop length]. unfold demo_pass, process_frame, get_frame.
    cbn [frame_count analysis_count _scene_index latest_caption].
    pose proof (div_30_step (frame_count v)) as Hstep.
    destruct (S (frame_count v) mod 30 =? 0)%nat eqn:E; cbn [negb].
    + unfold analyze_context.
      change (length MOCK_SCENES) with 5%nat.
      change (length MOCK_AI_RESPONSES) with 5%nat.
      set (v1 := {| frame_count := S (frame_count v) |}).
      specialize (IH v1 (S index mod 5)%nat).
      assert (Hidx : (S index mod 5 = S (analysis_count v) mod 5)%nat)
        by (rewrite Hi; apply succ_mod_5).
      assert (Hscn : (S (_scene_index v) mod 5 = S (analysis_count v) mod 5)%nat)
        by (rewrite Hs; apply succ_mod_5).
      unfold v1 in IH. cbn [frame_count analysis_count _scene_index] in IH.
      destruct (demo_loop stamps _) as [[v' index'] more].
      destruct IH as (H1 & H2 & H3 & H4 & H5); [lia|exact Hscn|exact Hidx|].
      replace (frame_count v + S (length stamps))%nat
        with (S (frame_count v) + length stamps)%nat by lia.
      split; [exact H1|]. split; [exact H2|]. split; [exact H3|].
      split; [exact H4|].
      rewrite H5, speak_decision_metadata.
      assert (Hmono : (S (frame_count v) / 30
                       <= (S (frame_count v) + length stamps) / 30)%nat)
        by (apply Nat.Div0.div_le_mono; lia).
      replace ((S (frame_count v) + length stamps) / 30 - analysis_count v)%nat
        with (S ((S (frame_count v) + length stamps) / 30
                 - S (analysis_count v)))%nat by lia.
      cbn [seq flat_map]. unfold mock_says at 2. rewrite Hidx. reflexivity.
    + set (v1 := {| frame_count := S (frame_count v) |}).
      specialize (IH v1 index).
      unfold v1 in IH. cbn [frame_count analysis_count _scene_index] in IH.
      destruct (demo_loop stamps _) as [[v' index'] more].
      destruct IH as (H1 & H2 & H3 & H4 & H5); [lia|exact Hs|exact Hi|].
      replace (frame_count v + S (length stamps))%nat
        with (S (frame_count v) + length stamps)%nat by lia.
      repeat split; assumption.
Qed.

(** X27. In the demo loop every 30th frame is analysed and no other: after
    [n] passes [n] frames were taken, [n / 30] of them analysed, and the
    scenes and the decisions have cycled through their five entries; what
    was spoken is, analysis after analysis, what the mock response of that
    number (modulo 5) says, so 3 analyses in 5 lead to speech.  Within 35
    passes a frame is analysed. *)
Theorem demo_loop_analyses_every_thirtieth (stamps : list string) :
  let n := length stamps in
  let out := demo_loop stamps (vision_init, 0%nat) in
  let v := fst (fst out) in
  frame_count v = n /\
  analysis_count v = (n / 30)%nat /\
  _scene_index v = ((n / 30) mod 5)%nat /\
  snd (fst out) = ((n / 30) mod 5)%nat /\
  snd out = flat_map mock_says (seq 1 (n / 30)) /\
  (35 <= n -> 1 <= analysis_count v)%nat /\
  map (fun i => length (mock_says i)) (seq 1 5) = [0; 1; 1; 0; 1]%nat.
Proof.
  cbv zeta.
  pose proof (demo_loop_from stamps vision_init 0%nat eq_refl eq_refl eq_refl)
    as H.
  destruct (demo_loop stamps (vision_init, 0%nat)) as [[v index] spoken].
  simpl in H. destruct H as (H1 & H2 & H3 & H4 & H5).
  rewrite Nat.sub_0_r in H5. cbn [fst snd].
  split; [exact H1|]. split; [exact H2|]. split; [exact H3|].
  split; [exact H4|]. split; [exact H5|]. split; [|reflexivity].
  intros Hn. rewrite H2.
  apply (Nat.div_le_lower_bound (length stamps) 30 1); lia.
Qed.

(** The loop of the test of the mock vision: 35 passes. *)
Lemma demo_loop_analyses_every_thirtieth_witness :
  (1 <= analysis_count
          (fst (fst (demo_loop (List.repeat "T" 35) (vision_init, 0%nat)))))%nat.
Proof.
  destruct (demo_loop_analyses_every_thirtieth (List.repeat "T" 35))
    as (_ & _ & _ & _ & _ & H & _).
  apply H. simpl. lia.
Defined.

End MockServicesProps.


(** ** The wizard's keys *)

Module WizardProps.
Import DemoMode DemoModeProps WizardOfOz.




End WizardProps.
